(** * The RecBole-derived [Trainer] of the adversarial-disentangle-bias
      recommender: a shallow embedding of
      [ads_p/recbole/trainer/trainer.py] and the properties its
      specification states about it.

    Layout: part I embeds the Python code (runtime conventions, tensors,
    the trainer object and its methods, each under the name it has in the
    source); part II states and proves the properties. *)

From Stdlib Require Import ZArith QArith Floats Ascii String Lia.
From stdpp Require Import base option list strings gmap sorting pretty.

Local Open Scope Z_scope.

(* ===================================================================== *)
(** * Part I - the embedding                                              *)
(* ===================================================================== *)

(** ** Python runtime conventions *)

Module Py.

(** The exceptions the modelled code can raise. *)
Inductive exn : Type :=
| ValueError (msg : string)
| TypeError (msg : string)
| IndexError (msg : string)
| RuntimeError (msg : string)
| ZeroDivisionError (msg : string).

(** A call either returns a value or raises. *)
Inductive outcome (A : Type) : Type :=
| Ok (a : A)
| Raise (e : exn).
Arguments Ok {A} a.
Arguments Raise {A} e.

#[export] Instance outcome_ret : MRet outcome := @Ok.
#[export] Instance outcome_bind : MBind outcome :=
  λ A B f m, match m with Ok a => f a | Raise e => Raise e end.
#[export] Instance outcome_fmap : FMap outcome :=
  λ A B f m, match m with Ok a => Ok (f a) | Raise e => Raise e end.

(** [range(a, b)]: empty when [b <= a]. *)
Definition range (a b : Z) : list Z :=
  (λ i : nat, a + Z.of_nat i) <$> seq 0 (Z.to_nat (b - a)).

(** The position a (possibly negative) index denotes in a sequence of
    length [n]: Python and torch count negative indices from the end. *)
Definition wrap (n : nat) (i : Z) : nat :=
  Z.to_nat (if i <? 0 then i + Z.of_nat n else i).

Definition in_bounds (n : nat) (i : Z) : bool :=
  (- Z.of_nat n <=? i) && (i <? Z.of_nat n).

Definition norm_index (n : nat) (i : Z) : outcome nat :=
  if in_bounds n i then Ok (wrap n i)
  else Raise (IndexError "index out of range").

(** [l[i]] on a list. *)
Definition getitem {A} (l : list A) (i : Z) : outcome A :=
  k ← norm_index (length l) i;
  match l !! k with
  | Some x => Ok x
  | None => Raise (IndexError "list index out of range")
  end.

(** [str.lower()] on ASCII text. *)
Definition lower_ascii (c : ascii) : ascii :=
  let n := nat_of_ascii c in
  if (65 <=? n)%nat && (n <=? 90)%nat then ascii_of_nat (n + 32) else c.

Fixpoint lower (s : string) : string :=
  match s with
  | EmptyString => EmptyString
  | String c s' => String (lower_ascii c) (lower s')
  end.

(** [mapM] over a list, left to right, stopping at the first exception. *)
Fixpoint mapM {A B} (f : A → outcome B) (l : list A) : outcome (list B) :=
  match l with
  | [] => Ok []
  | x :: l' => y ← f x; ys ← mapM f l'; Ok (y :: ys)
  end.

(** A left fold whose step may raise. *)
Fixpoint foldM {A S} (f : S → A → outcome S) (s : S) (l : list A) : outcome S :=
  match l with
  | [] => Ok s
  | x :: l' => s' ← f s x; foldM f s' l'
  end.

End Py.
Export Py.

(** ** Tensors

    Scores and losses are IEEE floating-point numbers; the kernel's
    binary64 [float] stands for the tensors' dtype.  The code modelled here
    only copies scores, overwrites them with [-inf], compares them and tests
    a loss for NaN, so the width of the mantissa plays no role. *)

Module Tensor.

Definition neg_inf : float := neg_infinity.

(** A 2-D tensor, row-major: the list of its rows. *)
Abbreviation Matrix := (list (list float)) (only parsing).

Definition cell (m : Matrix) (r c : nat) : option float :=
  m !! r ≫= (.!! c).

(** The rows of [scores.view(-1, n)], cut from the flat data. *)
Fixpoint chunks (rows n : nat) (l : list float) : Matrix :=
  match rows with
  | O => []
  | S k => take n l :: chunks k n (drop n l)
  end.

(** [t.view(-1, n)]: the row count is inferred; torch refuses [n = 0] and
    a length that [n] does not divide. *)
Definition view (flat : list float) (n : nat) : outcome Matrix :=
  if decide (n = 0%nat) then
    Raise (RuntimeError "cannot infer the dimension -1")
  else if decide ((length flat mod n)%nat = 0%nat) then
    Ok (chunks (length flat / n) n flat)
  else Raise (RuntimeError "shape is invalid for input size").

(** [t[:, c] = v] for a column [c] given as a position. *)
Definition fill_column (m : Matrix) (c : nat) (v : float) : Matrix :=
  (λ row, <[c := v]> row) <$> m.

(** Index tensors used together are broadcast: equal lengths pair up, a
    one-element tensor pairs with every element of the other. *)
Definition zip_index (rows cols : list Z) : outcome (list (Z * Z)) :=
  if decide (length rows = length cols) then Ok (zip rows cols)
  else match rows, cols with
       | [r], _ => Ok ((λ c, (r, c)) <$> cols)
       | _, [c] => Ok ((λ r, (r, c)) <$> rows)
       | _, _ => Raise (IndexError "shape mismatch: indexing tensors could not be broadcast")
       end.

(** The position an index pair denotes in [m] (bounds checked against the
    tensor's shape). *)
Definition locate (m : Matrix) (rc : Z * Z) : outcome (nat * nat) :=
  r ← norm_index (length m) rc.1;
  match m !! r with
  | Some row => c ← norm_index (length row) rc.2; Ok (r, c)
  | None => Raise (IndexError "index out of range")
  end.

Definition read (m : Matrix) (rc : Z * Z) : outcome float :=
  p ← locate m rc;
  match cell m p.1 p.2 with
  | Some x => Ok x
  | None => Raise (IndexError "index out of range")
  end.

Definition write (m : Matrix) (rc : Z * Z) (v : float) : outcome Matrix :=
  p ← locate m rc;
  Ok (alter (λ row, <[p.2 := v]> row) p.1 m).

(** [t[rows, cols]]: a new tensor holding the addressed elements. *)
Definition index_get (m : Matrix) (rows cols : list Z) : outcome (list float) :=
  idx ← zip_index rows cols;
  mapM (read m) idx.

(** [t[rows, cols] = v] for a scalar [v]. *)
Definition index_fill (m : Matrix) (rows cols : list Z) (v : float) : outcome Matrix :=
  idx ← zip_index rows cols;
  foldM (λ acc rc, write acc rc v) m idx.

(** [t[rows, cols] = vals]: the values, already gathered, are stored at the
    addressed positions in index order (a one-element [vals] is broadcast).
    torch leaves the winner among repeated targets unspecified; here the
    last one stands. *)
Definition index_put (m : Matrix) (rows cols : list Z) (vals : list float) : outcome Matrix :=
  idx ← zip_index rows cols;
  vs ← (if decide (length vals = length idx) then Ok vals
        else match vals with
             | [v] => Ok (replicate (length idx) v)
             | _ => Raise (RuntimeError "shape mismatch: value tensor cannot be broadcast")
             end);
  foldM (λ acc '(rc, v), write acc rc v) m (zip idx vs).

End Tensor.
Export Tensor.

(** ** Batches *)

(** An interaction batch: field name to aligned column of values. *)
Definition Interaction : Type := list (string * list Z).

(** What a full-ranking data loader yields per batch (the tuple unpacked at
    the head of [_full_sort_batch_eval]).  The loader is not part of
    [trainer.py]; of its batches the trainer only uses that
    [history_index], when present, is a pair of index tensors (rows,
    columns) and that each swap set is three index tensors. *)
Record FullSortBatch : Type := mkFullSortBatch {
  interaction : Interaction;
  history_index : option (list Z * list Z);
  swap_row1 : list Z;
  swap_col_after1 : list Z;
  swap_col_before1 : list Z;
  swap_row2 : list Z;
  swap_col_after2 : list Z;
  swap_col_before2 : list Z
}.

(** ** Full-ranking evaluation of one batch *)

Module FullSort.

(** Lines 419-424 of [_full_sort_batch_eval] (and 449-454 of
    [_full_sort_batch_eval_pop]): reshape the predicted scores to
    users x items, then force column 0 and the history positions to
    [-inf]. *)
Definition mask_scores (pred : list float) (tot_item_num : nat)
    (history_index : option (list Z * list Z)) : outcome Matrix :=
  scores ← view pred tot_item_num;
  let scores := fill_column scores 0 neg_inf in
  match history_index with
  | Some (hrow, hcol) => index_fill scores hrow hcol neg_inf
  | None => Ok scores
  end.

(** One statement [scores[row, after] = tmp_scores[row, before]].
    [tmp_scores = scores] binds a second name to the same tensor, so the
    right-hand side reads the tensor as it is when the statement runs; the
    gather copies, so within a statement every value read is the one from
    before the statement's writes. *)
Definition swap_statement (scores : Matrix) (row after before : list Z) : outcome Matrix :=
  vals ← index_get scores row before;
  index_put scores row after vals.

(** [_full_sort_batch_eval], from the scores [pred] that the prediction
    block (lines 402-417) returned for the batch. *)
Definition _full_sort_batch_eval (pred : list float) (tot_item_num : nat)
    (b : FullSortBatch) : outcome (Interaction * Matrix) :=
  scores ← mask_scores pred tot_item_num (history_index b);
  scores ← swap_statement scores (swap_row1 b) (swap_col_after1 b) (swap_col_before1 b);
  scores ← swap_statement scores (swap_row2 b) (swap_col_after2 b) (swap_col_before2 b);
  Ok (interaction b, scores).

(** [_full_sort_batch_eval_pop]: prediction and masking only. *)
Definition _full_sort_batch_eval_pop (pred : list float) (tot_item_num : nat)
    (b : FullSortBatch) : outcome (Interaction * Matrix) :=
  scores ← mask_scores pred tot_item_num (history_index b);
  Ok (interaction b, scores).

(** The same two statements run in the other order, for comparison. *)
Definition _full_sort_batch_eval_swapped_order (pred : list float) (tot_item_num : nat)
    (b : FullSortBatch) : outcome (Interaction * Matrix) :=
  scores ← mask_scores pred tot_item_num (history_index b);
  scores ← swap_statement scores (swap_row2 b) (swap_col_after2 b) (swap_col_before2 b);
  scores ← swap_statement scores (swap_row1 b) (swap_col_after1 b) (swap_col_before1 b);
  Ok (interaction b, scores).

End FullSort.
Export FullSort.

(** ** The trainer object and its collaborators *)

(** A [state_dict]: parameter name to (flattened) tensor, in order. *)
Definition StateDict : Type := list (string * list float).

(** [config['clip_grad_norm']]: the keyword arguments of [clip_grad_norm_]. *)
Record ClipArgs : Type := mkClipArgs { max_norm : Q; norm_type : Q }.

(** The keys of the configuration that [trainer.py] reads. *)
Record Config : Type := mkConfig {
  cfg_model : string;
  cfg_learner : string;
  cfg_learning_rate : Q;
  cfg_epochs : Z;
  cfg_eval_step : Z;
  cfg_stopping_step : Z;
  cfg_clip_grad_norm : option ClipArgs;
  cfg_valid_metric : string;
  cfg_valid_metric_bigger : bool;
  cfg_eval_batch_size : Z;
  cfg_checkpoint_dir : string;
  cfg_weight_decay : Q;
  cfg_topk : list Z;
  cfg_p_class : Z
}.

(** [torch.optim]: the update rules [_build_optimizer] chooses from.  An
    optimizer's [state_dict()] is its hyper-parameters ([param_groups]) and
    its per-parameter buffers; [weight_decay] is absent ([None]) for
    [SparseAdam], which has no such hyper-parameter. *)
Inductive OptKind : Type := Adam | SGD | Adagrad | RMSprop | SparseAdam.

Record OptStateDict : Type := mkOptStateDict {
  lr : Q;
  weight_decay_of : option Q;
  buffers : StateDict
}.

Record Optimizer : Type := mkOptimizer {
  kind : OptKind;
  opt_state_dict : OptStateDict
}.

(** torch's default for [weight_decay] where a constructor takes one. *)
Definition default_weight_decay : Q := 0%Q.

Definition optim_new (k : OptKind) (lr : Q) (wd : option Q) : Optimizer :=
  mkOptimizer k (mkOptStateDict lr wd []).

(** [self.model]: its parameters and their gradient buffers ([.grad]). *)
Record Model : Type := mkModel {
  state_dict : StateDict;
  grad : StateDict
}.

(** What one training batch's loss function returns: a scalar tensor or a
    tuple of them. *)
Inductive Losses : Type :=
| LossScalar (l : float)
| LossTuple (ls : list float).

(** The metric dictionary an evaluation returns. *)
Definition ValidResult : Type := list (string * Q).

(** The behaviour of the objects the trainer drives and does not define:
    the model's loss, autograd, gradient clipping, the optimizer's update
    rule, and the evaluation of the model on held-out data (with
    [calculate_valid_score], which reads the validation score off the
    result). *)
Class Collaborators : Type := {
  calculate_loss : StateDict → Interaction → Losses;
  backward : StateDict → Interaction → StateDict → StateDict;
  clip_grad_norm_ : ClipArgs → StateDict → StateDict;
  zero_grad : StateDict → StateDict;
  optimizer_step : Optimizer → Model → Optimizer * StateDict;
  evaluate_model : StateDict → list Interaction → ValidResult;
  calculate_valid_score : ValidResult → string → Q
}.

(** The attributes of a [Trainer] instance, as [__init__] creates them. *)
Record Trainer : Type := mkTrainer {
  config : Config;
  model_name : string;
  learner : string;
  learning_rate : Q;
  epochs : Z;
  eval_step : Z;
  stopping_step : Z;
  clip_grad_norm : option ClipArgs;
  valid_metric : string;
  valid_metric_bigger : bool;
  test_batch_size : Z;
  saved_model_file : string;
  weight_decay : Q;
  start_epoch : Z;
  cur_step : Z;
  best_valid_score : Q;
  best_valid_result : option ValidResult;
  train_loss_dict : gmap Z (option float);
  optimizer : Optimizer;
  model : Model;
  item_popularity : list Z
}.

(** What [torch.save] writes in [_save_checkpoint]. *)
Record Checkpoint : Type := mkCheckpoint {
  ck_config : Config;
  ck_epoch : Z;
  ck_cur_step : Z;
  ck_best_valid_score : Q;
  ck_state_dict : StateDict;
  ck_optimizer : OptStateDict
}.

Inductive LogRecord : Type :=
| LogWarning (msg : string)
| LogInfo (msg : string).

(** The steps of a run of [fit], in the order they happen: an epoch
    trained, a checkpoint written, a validation score computed, the
    callback invoked, the loop left by [break]. *)
Inductive Event : Type :=
| Trained (epoch_idx : Z)
| Saved (epoch : Z)
| Validated (epoch_idx : Z) (valid_score : Q)
| CalledBack (epoch_idx : Z) (valid_score : Q)
| Stopped (epoch_idx : Z).

(** The trainer together with what its methods act on besides it: the
    files under the checkpoint directory, the logger's output, and the
    record of a run's steps. *)
Record World : Type := mkWorld {
  self : Trainer;
  fs : gmap string Checkpoint;
  logs : list LogRecord;
  events : list Event
}.

(** Attribute assignment [self.f = v], one function per attribute the
    methods assign. *)
Definition set_epochs (v : Z) (t : Trainer) : Trainer :=
  mkTrainer (config t) (model_name t) (learner t) (learning_rate t) v (eval_step t) (stopping_step t) (clip_grad_norm t) (valid_metric t) (valid_metric_bigger t) (test_batch_size t) (saved_model_file t) (weight_decay t) (start_epoch t) (cur_step t) (best_valid_score t) (best_valid_result t) (train_loss_dict t) (optimizer t) (model t) (item_popularity t).
Definition set_start_epoch (v : Z) (t : Trainer) : Trainer :=
  mkTrainer (config t) (model_name t) (learner t) (learning_rate t) (epochs t) (eval_step t) (stopping_step t) (clip_grad_norm t) (valid_metric t) (valid_metric_bigger t) (test_batch_size t) (saved_model_file t) (weight_decay t) v (cur_step t) (best_valid_score t) (best_valid_result t) (train_loss_dict t) (optimizer t) (model t) (item_popularity t).
Definition set_cur_step (v : Z) (t : Trainer) : Trainer :=
  mkTrainer (config t) (model_name t) (learner t) (learning_rate t) (epochs t) (eval_step t) (stopping_step t) (clip_grad_norm t) (valid_metric t) (valid_metric_bigger t) (test_batch_size t) (saved_model_file t) (weight_decay t) (start_epoch t) v (best_valid_score t) (best_valid_result t) (train_loss_dict t) (optimizer t) (model t) (item_popularity t).
Definition set_best_valid_score (v : Q) (t : Trainer) : Trainer :=
  mkTrainer (config t) (model_name t) (learner t) (learning_rate t) (epochs t) (eval_step t) (stopping_step t) (clip_grad_norm t) (valid_metric t) (valid_metric_bigger t) (test_batch_size t) (saved_model_file t) (weight_decay t) (start_epoch t) (cur_step t) v (best_valid_result t) (train_loss_dict t) (optimizer t) (model t) (item_popularity t).
Definition set_best_valid_result (v : option ValidResult) (t : Trainer) : Trainer :=
  mkTrainer (config t) (model_name t) (learner t) (learning_rate t) (epochs t) (eval_step t) (stopping_step t) (clip_grad_norm t) (valid_metric t) (valid_metric_bigger t) (test_batch_size t) (saved_model_file t) (weight_decay t) (start_epoch t) (cur_step t) (best_valid_score t) v (train_loss_dict t) (optimizer t) (model t) (item_popularity t).
Definition set_train_loss_dict (v : gmap Z (option float)) (t : Trainer) : Trainer :=
  mkTrainer (config t) (model_name t) (learner t) (learning_rate t) (epochs t) (eval_step t) (stopping_step t) (clip_grad_norm t) (valid_metric t) (valid_metric_bigger t) (test_batch_size t) (saved_model_file t) (weight_decay t) (start_epoch t) (cur_step t) (best_valid_score t) (best_valid_result t) v (optimizer t) (model t) (item_popularity t).
Definition set_optimizer (v : Optimizer) (t : Trainer) : Trainer :=
  mkTrainer (config t) (model_name t) (learner t) (learning_rate t) (epochs t) (eval_step t) (stopping_step t) (clip_grad_norm t) (valid_metric t) (valid_metric_bigger t) (test_batch_size t) (saved_model_file t) (weight_decay t) (start_epoch t) (cur_step t) (best_valid_score t) (best_valid_result t) (train_loss_dict t) v (model t) (item_popularity t).
Definition set_model (v : Model) (t : Trainer) : Trainer :=
  mkTrainer (config t) (model_name t) (learner t) (learning_rate t) (epochs t) (eval_step t) (stopping_step t) (clip_grad_norm t) (valid_metric t) (valid_metric_bigger t) (test_batch_size t) (saved_model_file t) (weight_decay t) (start_epoch t) (cur_step t) (best_valid_score t) (best_valid_result t) (train_loss_dict t) (optimizer t) v (item_popularity t).

(** ** Methods run against the world: state passing with exceptions.
    When a method raises, the world is the one at the raise. *)

Definition M (A : Type) : Type := World → outcome A * World.

#[export] Instance M_ret : MRet M := λ A a w, (Ok a, w).
#[export] Instance M_bind : MBind M :=
  λ A B f m w, match m w with
               | (Ok a, w') => f a w'
               | (Raise e, w') => (Raise e, w')
               end.

Definition raise {A} (e : exn) : M A := λ w, (Raise e, w).
Definition lift {A} (o : outcome A) : M A := λ w, (o, w).
Definition get_self : M Trainer := λ w, (Ok (self w), w).
Definition modify_self (f : Trainer → Trainer) : M unit :=
  λ w, (Ok (), mkWorld (f (self w)) (fs w) (logs w) (events w)).
Definition write_file (path : string) (c : Checkpoint) : M unit :=
  λ w, (Ok (), mkWorld (self w) (<[path := c]> (fs w)) (logs w) (events w)).
Definition read_file (path : string) : M Checkpoint :=
  λ w, match fs w !! path with
       | Some c => (Ok c, w)
       | None => (Raise (RuntimeError "No such file or directory"), w)
       end.
Definition log (r : LogRecord) : M unit :=
  λ w, (Ok (), mkWorld (self w) (fs w) (logs w ++ [r]) (events w)).
Definition emit (ev : Event) : M unit :=
  λ w, (Ok (), mkWorld (self w) (fs w) (logs w) (events w ++ [ev])).
Definition when (b : bool) (m : M unit) : M unit := if b then m else mret ().

(** ** [Trainer] *)

Module TrainerImpl.

Definition Qlt_bool (x y : Q) : bool := negb (Qle_bool y x).

(** [_build_optimizer]: the optimizer chosen from [self.learner], and what
    it logs. *)
Definition _build_optimizer (learner : string) (learning_rate weight_decay : Q)
    : Optimizer * list LogRecord :=
  if decide (lower learner = "adam") then
    (optim_new Adam learning_rate (Some weight_decay), [])
  else if decide (lower learner = "sgd") then
    (optim_new SGD learning_rate (Some weight_decay), [])
  else if decide (lower learner = "adagrad") then
    (optim_new Adagrad learning_rate (Some weight_decay), [])
  else if decide (lower learner = "rmsprop") then
    (optim_new RMSprop learning_rate (Some weight_decay), [])
  else if decide (lower learner = "sparse_adam") then
    (optim_new SparseAdam learning_rate None,
     if Qlt_bool 0 weight_decay
     then [LogWarning "Sparse Adam cannot argument received argument [{weight_decay}]"]
     else [])
  else
    (optim_new Adam learning_rate (Some default_weight_decay),
     [LogWarning "Received unrecognized optimizer, set default Adam optimizer"]).

(** [Trainer.__init__(self, config, model, item_popularity)].  The third
    positional parameter has no default: a call that does not supply it
    ([None] here) raises [TypeError] before the body runs.  [now] is what
    [get_local_time()] returns. *)
Definition Trainer__init__ (config : Config) (model : Model)
    (item_popularity : option (list Z)) (now : string)
    : outcome (Trainer * list LogRecord) :=
  match item_popularity with
  | None =>
      Raise (TypeError "__init__() missing 1 required positional argument: 'item_popularity'")
  | Some item_popularity =>
      let epochs := cfg_epochs config in
      let '(optimizer, warnings) :=
        _build_optimizer (cfg_learner config) (cfg_learning_rate config)
                         (cfg_weight_decay config) in
      Ok (mkTrainer config (cfg_model config) (cfg_learner config)
            (cfg_learning_rate config) epochs
            (Z.min (cfg_eval_step config) epochs)
            (cfg_stopping_step config) (cfg_clip_grad_norm config)
            (lower (cfg_valid_metric config)) (cfg_valid_metric_bigger config)
            (cfg_eval_batch_size config)
            (cfg_checkpoint_dir config +:+ "/" +:+ cfg_model config +:+ "-" +:+ now +:+ ".pth")
            (cfg_weight_decay config)
            0 0 (-1)%Q None ∅ optimizer model item_popularity,
          warnings)
  end.

(** [TraditionalTrainer.__init__(self, config, model)]: it calls
    [super().__init__(config, model)], then sets [self.epochs = 1]. *)
Definition TraditionalTrainer__init__ (config : Config) (model : Model) (now : string)
    : outcome (Trainer * list LogRecord) :=
  '(t, warnings) ← Trainer__init__ config model None now;
  Ok (set_epochs 1 t, warnings).

(** [_check_nan] *)
Definition _check_nan (loss : float) : M unit :=
  if PrimFloat.is_nan loss then raise (ValueError "Training loss is nan") else mret ().

(** Python's [sum] over floats: a left fold of [+] from [0]. *)
Definition py_sum (xs : list float) : float := foldl PrimFloat.add 0%float xs.

(** [total_loss] in [_train_epoch]: a float, or a tuple of floats. *)
Inductive TotalLoss : Type :=
| TotalScalar (x : float)
| TotalTuple (xs : list float).

(** Lines 161-167: the loss to backpropagate and the running total. *)
Definition accumulate (total_loss : option TotalLoss) (losses : Losses)
    : outcome (float * TotalLoss) :=
  match losses with
  | LossTuple ls =>
      let loss := py_sum ls in
      total_loss ← match total_loss with
                   | None => Ok (TotalTuple ls)
                   | Some (TotalTuple xs) =>
                       Ok (TotalTuple ((λ p : float * float, py_sum [p.1; p.2])
                                       <$> zip xs ls))
                   | Some (TotalScalar _) =>
                       Raise (TypeError "'float' object is not iterable")
                   end;
      (* the sum of an empty tuple is the int 0, which [torch.isnan] refuses *)
      if bool_decide (ls = []) then
        Raise (TypeError "isnan(): argument 'input' must be Tensor, not int")
      else Ok (loss, total_loss)
  | LossScalar l =>
      match total_loss with
      | None => Ok (l, TotalScalar l)
      | Some (TotalScalar x) => Ok (l, TotalScalar (PrimFloat.add x l))
      | Some (TotalTuple _) =>
          Raise (TypeError "can only concatenate tuple (not float) to tuple")
      end
  end.

Section WithCollaborators.
Context `{Collaborators}.

(** The body of the batch loop of [_train_epoch] (lines 154-173).
    [loss_func] is the loss to train, [backward] its autograd.  Moving the
    batch to the device ([interaction.to]) and the training mode
    ([model.train()]) change no value and are left out. *)
Definition train_batch (loss_func : StateDict → Interaction → Losses)
    (total_loss : option TotalLoss) (interaction : Interaction) : M (option TotalLoss) :=
  (* self.optimizer.zero_grad() *)
  modify_self (λ t, set_model (mkModel (state_dict (model t)) (zero_grad (grad (model t)))) t);;
  t ← get_self;
  let losses := loss_func (state_dict (model t)) interaction in
  '(loss, total_loss) ← lift (accumulate total_loss losses);
  _check_nan loss;;
  (* loss.backward() *)
  modify_self (λ t, set_model (mkModel (state_dict (model t))
                       (backward (state_dict (model t)) interaction (grad (model t)))) t);;
  (* if self.clip_grad_norm: clip_grad_norm_(...) *)
  modify_self (λ t, match clip_grad_norm t with
                    | Some args => set_model (mkModel (state_dict (model t))
                                                (clip_grad_norm_ args (grad (model t)))) t
                    | None => t
                    end);;
  (* self.optimizer.step() *)
  modify_self (λ t, let '(opt, params) := optimizer_step (optimizer t) (model t) in
                    set_optimizer opt (set_model (mkModel params (grad (model t))) t));;
  mret (Some total_loss).

Fixpoint train_batches (loss_func : StateDict → Interaction → Losses)
    (total_loss : option TotalLoss) (train_data : list Interaction) : M (option TotalLoss) :=
  match train_data with
  | [] => mret total_loss
  | interaction :: rest =>
      total_loss ← train_batch loss_func total_loss interaction;
      train_batches loss_func total_loss rest
  end.

(** [_train_epoch] *)
Definition _train_epoch (train_data : list Interaction) (epoch_idx : Z)
    (loss_func : option (StateDict → Interaction → Losses)) : M (option TotalLoss) :=
  let loss_func := default calculate_loss loss_func in
  train_batches loss_func None train_data.

(** [_save_checkpoint] *)
Definition _save_checkpoint (epoch : Z) : M unit :=
  t ← get_self;
  let state := mkCheckpoint (config t) epoch (cur_step t) (best_valid_score t)
                 (state_dict (model t)) (opt_state_dict (optimizer t)) in
  write_file (saved_model_file t) state;;
  emit (Saved epoch).

(** [model.load_state_dict] (strict): the keys must be the model's own. *)
Definition load_state_dict (sd : StateDict) : M unit :=
  t ← get_self;
  if decide (sd.*1 = (state_dict (model t)).*1) then
    modify_self (set_model (mkModel sd (grad (model t))))
  else raise (RuntimeError "Error(s) in loading state_dict").

(** [resume_checkpoint] *)
Definition resume_checkpoint (resume_file : string) : M unit :=
  checkpoint ← read_file resume_file;
  modify_self (set_start_epoch (ck_epoch checkpoint + 1));;
  modify_self (set_cur_step (ck_cur_step checkpoint));;
  modify_self (set_best_valid_score (ck_best_valid_score checkpoint));;
  t ← get_self;
  when (bool_decide (lower (cfg_model (ck_config checkpoint)) ≠ lower (cfg_model (config t))))
    (log (LogWarning "Architecture configuration given in config file is different from that of checkpoint. This may yield an exception while state_dict is being loaded."));;
  load_state_dict (ck_state_dict checkpoint);;
  modify_self (λ t, set_optimizer (mkOptimizer (kind (optimizer t)) (ck_optimizer checkpoint)) t);;
  t ← get_self;
  log (LogInfo ("Checkpoint loaded. Resume training from epoch " +:+ pretty (start_epoch t))).

(** [_valid_epoch] *)
Definition _valid_epoch (valid_data : list Interaction) : M (Q * ValidResult) :=
  t ← get_self;
  let valid_result := evaluate_model (state_dict (model t)) valid_data in
  mret (calculate_valid_score valid_result (valid_metric t), valid_result).

End WithCollaborators.

End TrainerImpl.
Export TrainerImpl.

(** ** Early stopping and [fit] *)

Module Fit.

(** Modelled from the spec: [early_stopping] of [recbole.utils], which
    [trainer.py] imports and whose source is not among the files.  Section
    4.2 of the specification gives it: the score improves when it is
    strictly better than the best one; on improvement the best score
    becomes the new one and the step count 0, otherwise the count grows by
    one; stopping is signalled when the count has reached the patience.
    Returns [(best, cur_step, stop_flag, update_flag)]. *)
Definition early_stopping (value best : Q) (cur_step max_step : Z) (bigger : bool)
    : Q * Z * bool * bool :=
  let improved := if bigger then Qlt_bool best value else Qlt_bool value best in
  let best := if improved then value else best in
  let cur_step := if improved then 0 else cur_step + 1 in
  (best, cur_step, max_step <=? cur_step, improved).

(** How an iteration of the epoch loop ends. *)
Inductive LoopCtl : Type := Continue | Break.

(** [not valid_data]: [None], or a loader of length 0. *)
Definition py_not {A} (data : option (list A)) : bool :=
  match data with
  | None => true
  | Some l => bool_decide (l = [])
  end.

(** [sum(train_loss) if isinstance(train_loss, tuple) else train_loss] *)
Definition loss_entry (train_loss : option TotalLoss) : option float :=
  match train_loss with
  | Some (TotalTuple xs) => Some (py_sum xs)
  | Some (TotalScalar x) => Some x
  | None => None
  end.

Section WithCollaborators.
Context `{Collaborators}.

(** [_generate_train_loss_output], of which only the failure is kept: the
    text it builds is logged and nothing else, but ['%.4f' % losses]
    raises when the epoch had no batch and [losses] is [None]. *)
Definition _generate_train_loss_output (losses : option TotalLoss) : outcome unit :=
  match losses with
  | Some _ => Ok ()
  | None => Raise (TypeError "must be real number, not NoneType")
  end.

(** Lines 338-346 of [fit]: train one epoch, record its loss, format the
    log line. *)
Definition fit_train (train_data : list Interaction) (epoch_idx : Z) : M unit :=
  train_loss ← _train_epoch train_data epoch_idx None;
  emit (Trained epoch_idx);;
  modify_self (λ t, set_train_loss_dict
                      (<[epoch_idx := loss_entry train_loss]> (train_loss_dict t)) t);;
  lift (_generate_train_loss_output train_loss).

(** Lines 357-396 of [fit]: one validation, the early-stopping update and
    what follows from it. *)
Definition fit_validate (valid_data : list Interaction) (saved callback_fn : bool)
    (epoch_idx : Z) : M LoopCtl :=
  '(valid_score, valid_result) ← _valid_epoch valid_data;
  emit (Validated epoch_idx valid_score);;
  t ← get_self;
  let '(best, step, stop_flag, update_flag) :=
    early_stopping valid_score (best_valid_score t) (cur_step t)
                   (stopping_step t) (valid_metric_bigger t) in
  modify_self (λ t, set_cur_step step (set_best_valid_score best t));;
  when update_flag
    (when saved (_save_checkpoint epoch_idx);;
     modify_self (set_best_valid_result (Some valid_result)));;
  when callback_fn (emit (CalledBack epoch_idx valid_score));;
  if stop_flag then emit (Stopped epoch_idx);; mret Break
  else mret Continue.

(** Lines 348-396 of [fit]: what follows the training of an epoch. *)
Definition fit_eval (valid_data : option (list Interaction)) (saved callback_fn : bool)
    (epoch_idx : Z) : M LoopCtl :=
  t ← get_self;
  if (eval_step t <=? 0) || py_not valid_data then
    when saved (_save_checkpoint epoch_idx);;
    mret Continue
  else if (epoch_idx + 1) `mod` eval_step t =? 0 then
    fit_validate (default [] valid_data) saved callback_fn epoch_idx
  else mret Continue.

(** The body of the epoch loop of [fit]. *)
Definition fit_epoch (train_data : list Interaction) (valid_data : option (list Interaction))
    (saved callback_fn : bool) (epoch_idx : Z) : M LoopCtl :=
  fit_train train_data epoch_idx;;
  fit_eval valid_data saved callback_fn epoch_idx.

(** [for epoch_idx in ...:] with [break]. *)
Fixpoint fit_loop (train_data : list Interaction) (valid_data : option (list Interaction))
    (saved callback_fn : bool) (epoch_idxs : list Z) : M unit :=
  match epoch_idxs with
  | [] => mret ()
  | epoch_idx :: rest =>
      ctl ← fit_epoch train_data valid_data saved callback_fn epoch_idx;
      match ctl with
      | Break => mret ()
      | Continue => fit_loop train_data valid_data saved callback_fn rest
      end
  end.

(** [fit] *)
Definition fit (train_data : list Interaction) (valid_data : option (list Interaction))
    (saved callback_fn : bool) : M (Q * option ValidResult) :=
  t ← get_self;
  when (saved && (epochs t <=? start_epoch t)) (_save_checkpoint (-1));;
  fit_loop train_data valid_data saved callback_fn (range (start_epoch t) (epochs t));;
  t ← get_self;
  mret (best_valid_score t, best_valid_result t).

End WithCollaborators.

End Fit.
Export Fit.

(** ** Top-k, the recommendation list and popularity buckets *)

Module Pop.

(** [int -> float] as Python's true division converts its operands (exact
    below 2^53 in magnitude). *)
Definition float_of_Z (z : Z) : float :=
  if z <? 0 then PrimFloat.opp (PrimFloat.of_uint63 (Uint63.of_Z (- z)))
  else PrimFloat.of_uint63 (Uint63.of_Z z).

(** [int(x)] for a float: truncation toward zero. *)
Definition int_of_float (x : float) : outcome Z :=
  match Prim2SF x with
  | S754_zero _ => Ok 0
  | S754_finite s m e =>
      let v := if 0 <=? e then Z.pos m * 2 ^ e else Z.pos m / 2 ^ (- e) in
      Ok (if s then - v else v)
  | S754_infinity _ => Raise (ValueError "cannot convert float infinity to integer")
  | S754_nan => Raise (ValueError "cannot convert float NaN to integer")
  end.

(** [a / b] on ints. *)
Definition true_div (a b : Z) : outcome float :=
  if b =? 0 then Raise (ZeroDivisionError "division by zero")
  else Ok (PrimFloat.div (float_of_Z a) (float_of_Z b)).

(** [get_threshes] *)
Definition get_threshes (item_popularity : list Z) (n_class : Z) : outcome (list Z) :=
  let item_p := merge_sort Z.le item_popularity in
  t ← true_div (Z.of_nat (length item_p)) n_class;
  mapM (λ i, idx ← int_of_float (PrimFloat.mul (float_of_Z i) t);
             getitem item_p idx)
       (range 1 n_class).

(** The bucket loop of [evaluate_pop] (lines 662-671) for one item of
    popularity [i_pop]: the first [n] among [ns] whose range
    [(min_pop, max_pop]] holds [i_pop], if any.  [len] is
    [len(rec_num_list)]. *)
Fixpoint find_bucket (threshes : list Z) (len : nat) (i_pop : Z) (ns : list nat)
    : outcome (option nat) :=
  match ns with
  | [] => Ok None
  | n :: rest =>
      min_pop ← (if (0 <? n)%nat then getitem threshes (Z.of_nat n - 1) else Ok 0);
      max_pop ← (if (n <? len - 1)%nat then getitem threshes (Z.of_nat n) else Ok 100000);
      if (min_pop <? i_pop) && (i_pop <=? max_pop) then Ok (Some n)
      else find_bucket threshes len i_pop rest
  end.

(** The three counters of [evaluate_pop]. *)
Record PopStats : Type := mkPopStats {
  rec_num_list : list Z;
  rec_pos_score : list float;
  rec_pos_num : list Z
}.

Definition init_stats (p_class : Z) : PopStats :=
  let n := Z.to_nat p_class in
  mkPopStats (replicate n 0) (replicate n 0%float) (replicate n 0).

(** Lines 660-671 for one recommended [item] of user row [i]. *)
Definition count_item (item_popularity : list Z) (positive_items : list (list Z))
    (threshes : list Z) (scores : Matrix) (i : nat) (item : Z) (st : PopStats)
    : outcome PopStats :=
  i_pop ← getitem item_popularity item;
  let len := length (rec_num_list st) in
  b ← find_bucket threshes len i_pop (seq 0 len);
  match b with
  | None => Ok st
  | Some n =>
      let nums := alter (λ x, x + 1) n (rec_num_list st) in
      pos ← getitem positive_items (Z.of_nat i + 1);
      if bool_decide (item ∈ pos) then
        s ← read scores (Z.of_nat i, item);
        Ok (mkPopStats nums
              (alter (λ x, PrimFloat.add x s) n (rec_pos_score st))
              (alter (λ x, x + 1) n (rec_pos_num st)))
      else Ok (mkPopStats nums (rec_pos_score st) (rec_pos_num st))
  end.

(** [max(self.topk)] *)
Definition py_max (l : list Z) : outcome Z :=
  match l with
  | [] => Raise (ValueError "max() arg is an empty sequence")
  | x :: l' => Ok (foldl Z.max x l')
  end.

(** The position of the largest score among the candidates (the first one
    among equals). *)
Fixpoint argmax (best : nat * float) (cands : list (nat * float)) : nat * float :=
  match cands with
  | [] => best
  | c :: rest => argmax (if PrimFloat.ltb best.2 c.2 then c else best) rest
  end.

Fixpoint select (k : nat) (cands : list (nat * float)) : list nat :=
  match k, cands with
  | S k', c :: rest =>
      let b := argmax c rest in
      b.1 :: select k' (filter (λ x, x.1 ≠ b.1) cands)
  | _, _ => []
  end.

(** [torch.topk(scores, k, dim=-1)[1]]: per row, the positions of the [k]
    largest scores, largest first.  torch does not fix the order among
    equal scores; here the earlier position comes first.  Scores are
    assumed free of NaN. *)
Definition topk (scores : Matrix) (k : Z) : outcome (list (list Z)) :=
  mapM (λ row : list float,
          if (0 <=? k) && (k <=? Z.of_nat (length row)) then
            Ok (Z.of_nat <$> select (Z.to_nat k) (zip (seq 0 (length row)) row))
          else Raise (RuntimeError "selected index k out of range"))
       scores.

Definition tab : string := String (ascii_of_nat 9) EmptyString.

(** The lines the body of the [with open(file_path, 'w')] block writes for
    one batch (lines 593-599); each line stands without its newline. *)
Definition rec_lines (topk_idx : list (list Z)) (user_mp item_mp : list string)
    : outcome (list string) :=
  per_user ←
  mapM (λ '(u, row),
          user ← getitem user_mp (Z.of_nat u);
          mapM (λ '(p, i),
                  item ← getitem item_mp (i - 1);
                  let position := (p + 1)%nat in
                  Ok (user +:+ tab +:+ item +:+ tab +:+ pretty position))
               (zip (seq 0 (length row)) row))
       (zip (seq 0 (length topk_idx)) topk_idx);
  Ok (List.concat per_user).

(** [write_rec_list], on the text files [files].  [full_sort_predict] is
    the model's prediction for a batch; opening a file with mode ['w']
    truncates it. *)
Fixpoint write_rec_list_batches (full_sort_predict : Interaction → list float)
    (tot_item_num : nat) (topk_cfg : list Z) (file_path : string)
    (user_mp item_mp : list string) (eval_data : list FullSortBatch)
    (files : gmap string (list string)) : outcome (gmap string (list string)) :=
  match eval_data with
  | [] => Ok files
  | batched_data :: rest =>
      '(_, scores) ← _full_sort_batch_eval_pop
                       (full_sort_predict (interaction batched_data))
                       tot_item_num batched_data;
      k ← py_max topk_cfg;
      topk_idx ← topk scores k;
      let files := <[file_path := []]> files in
      lines ← rec_lines topk_idx user_mp item_mp;
      let files := <[file_path := lines]> files in
      write_rec_list_batches full_sort_predict tot_item_num topk_cfg file_path
        user_mp item_mp rest files
  end.

Definition write_rec_list (full_sort_predict : Interaction → list float)
    (tot_item_num : nat) (config : Config) (file_path : string)
    (eval_data : list FullSortBatch) (user_mp item_mp : list string)
    (files : gmap string (list string)) : outcome (gmap string (list string)) :=
  write_rec_list_batches full_sort_predict tot_item_num (cfg_topk config) file_path
    user_mp item_mp eval_data files.

(** Lines 653-671 of [evaluate_pop]: the batches, the user rows of a
    batch, the top-k items of a row. *)
Fixpoint evaluate_pop_batches (full_sort_predict : Interaction → list float)
    (tot_item_num : nat) (topk_cfg : list Z) (item_popularity : list Z)
    (positive_items : list (list Z)) (threshes : list Z)
    (eval_data : list FullSortBatch) (st : PopStats) : outcome PopStats :=
  match eval_data with
  | [] => Ok st
  | batched_data :: rest =>
      '(_, scores) ← _full_sort_batch_eval_pop
                       (full_sort_predict (interaction batched_data))
                       tot_item_num batched_data;
      k ← py_max topk_cfg;
      topk_idx ← topk scores k;
      st ← foldM (λ st '(i, row),
                    foldM (λ st item,
                             count_item item_popularity positive_items threshes
                                        scores i item st)
                          st row)
                 st (zip (seq 0 (length topk_idx)) topk_idx);
      evaluate_pop_batches full_sort_predict tot_item_num topk_cfg item_popularity
        positive_items threshes rest st
  end.

(** [evaluate_pop] (with [load_best_model=False], its default): [None]
    when there is no evaluation data, else
    [(rec_num_list, rec_pos_num, rec_mean_score)]. *)
Definition evaluate_pop (full_sort_predict : Interaction → list float)
    (tot_item_num : nat) (config : Config) (item_popularity : list Z)
    (positive_items : list (list Z)) (eval_data : list FullSortBatch)
    : outcome (option (list Z * list Z * list float)) :=
  if bool_decide (eval_data = []) then Ok None
  else
    threshes ← get_threshes item_popularity (cfg_p_class config);
    st ← evaluate_pop_batches full_sort_predict tot_item_num (cfg_topk config)
           item_popularity positive_items threshes eval_data
           (init_stats (cfg_p_class config));
    let rec_mean_score :=
      (λ '(score, num), if num =? 0 then 0%float
                        else PrimFloat.div score (float_of_Z num))
      <$> zip (rec_pos_score st) (rec_pos_num st) in
    Ok (Some (rec_num_list st, rec_pos_num st, rec_mean_score)).

End Pop.
Export Pop.


(** ** Vocabulary of the statements *)

(** The index pairs a history index addresses (none when it is [None]). *)
Definition history_pairs (history_index : option (list Z * list Z))
    : outcome (list (Z * Z)) :=
  match history_index with
  | Some (hrow, hcol) => zip_index hrow hcol
  | None => Ok []
  end.

(** Index pairs that lie within a [rows] x [n] tensor. *)
Definition pairs_in_bounds (rows n : nat) (idx : list (Z * Z)) : Prop :=
  Forall (λ rc, in_bounds rows rc.1 = true ∧ in_bounds n rc.2 = true) idx.

(** The positions they denote there. *)
Definition positions (rows n : nat) (idx : list (Z * Z)) : list (nat * nat) :=
  (λ rc, (wrap rows rc.1, wrap n rc.2)) <$> idx.

(** A matrix of [rows] rows of [n] columns. *)
Definition shape (rows n : nat) (m : Matrix) : Prop :=
  length m = rows ∧ Forall (λ row, length row = n) m.


(** The loss [_train_epoch] backpropagates for what the loss function
    returned: the scalar itself, or the sum of the tuple. *)
Definition combined_loss (losses : Losses) : float :=
  match losses with
  | LossScalar l => l
  | LossTuple ls => py_sum ls
  end.

(** ** Concrete collaborators and trainers, to run the model on *)

(** A model whose loss is [loss] of the batch, whose optimizer step appends
    a marker to the parameters (so that every step shows), and whose
    validation score after [k] steps is the [k]-th entry of [valid_scores]. *)
Definition demo_collaborators (loss : Interaction → Losses) (valid_scores : list Q)
    : Collaborators := {|
  calculate_loss := λ _ batch, loss batch;
  backward := λ _ _ g, g ++ [("grad", [1%float])];
  clip_grad_norm_ := λ _ g, g;
  zero_grad := λ _, [];
  optimizer_step := λ opt m, (opt, state_dict m ++ [("step", [])]);
  evaluate_model := λ params _,
    [("recall@10", default 0%Q (valid_scores !! length params))];
  calculate_valid_score := λ result _, default 0%Q (snd <$> head result)
|}.

Definition demo_config (epochs : Z) (stopping_step : Z) : Config :=
  mkConfig "BPR" "adam" (1 # 1000) epochs 1 stopping_step None
           "Recall@10" true 4096 "saved" 0 [2] 3.

Definition demo_trainer (epochs stopping_step : Z) : Trainer :=
  mkTrainer (demo_config epochs stopping_step) "BPR" "adam" (1 # 1000) epochs
            (Z.min 1 epochs) stopping_step None "recall@10" true 4096
            "saved/BPR-Nov-03-2026.pth" 0 0 0 (-1)%Q None ∅
            (optim_new Adam (1 # 1000) (Some 0%Q)) (mkModel [] [])
            [5; 1; 9; 3; 7; 2; 8; 4; 6].

Definition demo_world (epochs stopping_step : Z) : World :=
  mkWorld (demo_trainer epochs stopping_step) ∅ [] [].

(** A loss function that is NaN on the batches that carry a field
    ["bad"]. *)
Definition nan_on_bad (batch : Interaction) : Losses :=
  if bool_decide ("bad" ∈ batch.*1) then LossScalar nan else LossScalar 1%float.

(** The attributes of a trainer that training a batch does not assign:
    everything but the model, the optimizer and the loss history. *)
Definition progress (t : Trainer)
    : Config * Z * Z * Z * string * bool * string * Z * Z * Q * option ValidResult :=
  (config t, epochs t, eval_step t, stopping_step t, valid_metric t,
   valid_metric_bigger t, saved_model_file t, start_epoch t, cur_step t,
   best_valid_score t, best_valid_result t).

(** [value] is strictly better than [best] for the metric's polarity. *)
Definition better (bigger : bool) (value best : Q) : Prop :=
  if bigger then (best < value)%Q else (value < best)%Q.

(** [b'] is no worse than [b] for the metric's polarity. *)
Definition no_regress (bigger : bool) (b b' : Q) : Prop :=
  if bigger then (b <= b')%Q else (b' <= b)%Q.

(** Training an epoch on [train_data] returns a loss from every state:
    there is a batch, no batch loss is NaN and the loss keeps its kind
    (scalar or tuple). *)
Definition trains_normally `{Collaborators} (train_data : list Interaction) : Prop :=
  ∀ epoch_idx w, ∃ total w',
    _train_epoch train_data epoch_idx None w = (Ok (Some total), w').


(** Whether the epoch loop of [fit] validates after training
    [epoch_idx] (lines 349 and 356). *)
Definition evaluates (t : Trainer) (valid_data : option (list Interaction))
    (epoch_idx : Z) : bool :=
  negb ((eval_step t <=? 0) || py_not valid_data)
  && ((epoch_idx + 1) `mod` eval_step t =? 0).

(** Two full-ranking batches of one user each, over four items, and a
    model that predicts fixed scores for them. *)
Definition demo_batch (uid : Z) : FullSortBatch :=
  mkFullSortBatch [("user_id", [uid])] None [] [] [] [] [] [].

Definition demo_predict (batch : Interaction) : list float :=
  if bool_decide (batch = [("user_id", [1])])
  then [0; 3; 1; 2]%float
  else [0; 1; 5; 2]%float.

(** The bounds of bucket [n] among [len] buckets, as lines 663-664 of
    [evaluate_pop] compute them. *)
Definition min_pop (threshes : list Z) (n : nat) : Z :=
  if (0 <? n)%nat then default 0 (threshes !! (n - 1)%nat) else 0.

Definition max_pop (threshes : list Z) (len n : nat) : Z :=
  if (n <? len - 1)%nat then default 0 (threshes !! n) else 100000.

(** A batch whose first swap set writes the cell the second one reads:
    set 1 is (row 0, before 1, after 2), set 2 is (row 0, before 2,
    after 3). *)
Definition chained_swaps : FullSortBatch :=
  mkFullSortBatch [] None [0] [2] [1] [0] [3] [2].

(** The index pairs of a swap set whose three tensors have one length. *)
Definition swap_sources (row before : list Z) : list (Z * Z) := zip row before.
Definition swap_targets (row after : list Z) : list (Z * Z) := zip row after.

(** A batch whose two swap sets do not meet: set 1 is (row 0, before 1,
    after 3), set 2 is (row 0, before 1, after 2). *)
Definition separate_swaps : FullSortBatch :=
  mkFullSortBatch [] None [0] [3] [1] [0] [2] [1].

(** ** Pointwise prediction in blocks, and [evaluate] *)

Module Blocks.

(** What [model.predict] returns: a 0-dim tensor or a vector. *)
Inductive Prediction : Type :=
| Pred0 (x : float)
| Pred1 (xs : list float).

(** [result.unsqueeze(0)] when [len(result.shape) == 0]. *)
Definition to_vector (p : Prediction) : list float :=
  match p with
  | Pred0 x => [x]
  | Pred1 xs => xs
  end.

(** [k] consecutive pieces of [size] elements (the last ones shorter or
    empty). *)
Fixpoint chunks_of {A} (k size : nat) (l : list A) : list (list A) :=
  match k with
  | O => []
  | S k' => take size l :: chunks_of k' size (drop size l)
  end.

(** [a // b] on ints. *)
Definition floor_div (a b : Z) : outcome Z :=
  if b =? 0 then Raise (ZeroDivisionError "integer division or modulo by zero")
  else Ok (a `div` b).

(** [tensor.split(split_size, dim=0)] on a 1-D tensor: pieces of
    [split_size] elements, one (empty) piece for an empty tensor; a zero
    size is accepted for an empty tensor only. *)
Definition tensor_split (split_size : Z) (t : list Z) : outcome (list (list Z)) :=
  if split_size <? 0 then
    Raise (RuntimeError "split expects split_size be non-negative")
  else if bool_decide (t = []) then Ok [[]]
  else if split_size =? 0 then
    Raise (RuntimeError "split_size can only be 0 if dimension size is 0")
  else
    let size := Z.to_nat split_size in
    Ok (chunks_of ((length t + size - 1) / size) size t).

(** [_spilt_predict]; [predict] is [self.model.predict] on a batch. *)
Definition _spilt_predict (predict : Interaction → Prediction) (test_batch_size : Z)
    (interaction : Interaction) (batch_size : Z) : outcome (list float) :=
  spilt_interaction ←
    mapM (λ '(key, tensor),
            pieces ← tensor_split test_batch_size tensor; Ok (key, pieces))
         interaction;
  num_block ← floor_div (batch_size + test_batch_size - 1) test_batch_size;
  result_list ←
    mapM (λ i,
            current_interaction ←
              mapM (λ '(key, spilt_tensor),
                      piece ← getitem spilt_tensor i; Ok (key, piece))
                   spilt_interaction;
            Ok (to_vector (predict current_interaction)))
         (range 0 num_block);
  if bool_decide (result_list = []) then
    Raise (RuntimeError "torch.cat(): expected a non-empty list of Tensors")
  else Ok (List.concat result_list).

(** [interaction.length]: the longest column, -1 without columns. *)
Definition inter_length (interaction : Interaction) : Z :=
  foldr (λ kc acc, Z.max (Z.of_nat (length kc.2)) acc) (-1) interaction.

(** The pointwise branch of the batch loop of [evaluate] (lines 573-578). *)
Definition pointwise_scores (predict : Interaction → Prediction) (test_batch_size : Z)
    (interaction : Interaction) : outcome Prediction :=
  let batch_size := inter_length interaction in
  if batch_size <=? test_batch_size then Ok (predict interaction)
  else Pred1 <$> _spilt_predict predict test_batch_size interaction batch_size.

End Blocks.
Export Blocks.

(** Row [i] of a batch, and its first [len] rows. *)
Definition row_of (interaction : Interaction) (i : nat) : list (string * option Z) :=
  (λ kc, (kc.1, kc.2 !! i)) <$> interaction.

Definition rows_of (interaction : Interaction) (len : nat)
    : list (list (string * option Z)) :=
  row_of interaction <$> seq 0 len.

(** Every column of the batch holds [len] values. *)
Definition uniform (interaction : Interaction) (len : nat) : Prop :=
  Forall (λ kc, length kc.2 = len) interaction.

(** A model that scores each row of a batch by itself: on a batch with at
    least one column its prediction is [f] of every row, in order (given
    as a vector or, for a single row, possibly as a 0-dim tensor). *)
Definition rowwise (predict : Interaction → Prediction)
    (f : list (string * option Z) → float) : Prop :=
  ∀ interaction len,
    interaction ≠ [] → uniform interaction len →
    to_vector (predict interaction) = f <$> rows_of interaction len.

(** A row-wise model to run: the score of a row is its first field. *)
Definition demo_row_score (row : list (string * option Z)) : float :=
  match row with
  | (_, Some z) :: _ => float_of_Z z
  | _ => 0%float
  end.

Definition demo_rowwise_predict (interaction : Interaction) : Prediction :=
  Pred1 (demo_row_score
           <$> rows_of interaction (length (default [] (snd <$> head interaction)))).

(** ** Reading a run off its steps *)

(** The epochs trained, the validations made and the callbacks invoked,
    in order. *)
Definition trained_epochs (evs : list Event) : list Z :=
  omap (λ ev, match ev with Trained e => Some e | _ => None end) evs.

Definition validations (evs : list Event) : list (Z * Q) :=
  omap (λ ev, match ev with Validated e v => Some (e, v) | _ => None end) evs.

Definition callbacks (evs : list Event) : list (Z * Q) :=
  omap (λ ev, match ev with CalledBack e v => Some (e, v) | _ => None end) evs.

(** The trainer a successful [resume_checkpoint] leaves, given the
    checkpoint read. *)
Definition resumed (c : Checkpoint) (t : Trainer) : Trainer :=
  set_optimizer (mkOptimizer (kind (optimizer t)) (ck_optimizer c))
    (set_model (mkModel (ck_state_dict c) (grad (model t)))
       (set_best_valid_score (ck_best_valid_score c)
          (set_cur_step (ck_cur_step c)
             (set_start_epoch (ck_epoch c + 1) t)))).

(** The checkpoint [_save_checkpoint epoch] writes for a trainer. *)
Definition checkpoint_of (t : Trainer) (epoch : Z) : Checkpoint :=
  mkCheckpoint (config t) epoch (cur_step t) (best_valid_score t)
    (state_dict (model t)) (opt_state_dict (optimizer t)).

(** [demo_trainer] with a configured [eval_step], as [__init__] stores
    it: the smaller of [eval_step] and [epochs]. *)
Definition demo_trainer_eval_step (eval_step epochs stopping_step : Z) : Trainer :=
  mkTrainer (mkConfig "BPR" "adam" (1 # 1000) epochs eval_step stopping_step None
               "Recall@10" true 4096 "saved" 0 [2] 3)
            "BPR" "adam" (1 # 1000) epochs
            (Z.min eval_step epochs) stopping_step None "recall@10" true 4096
            "saved/BPR-Nov-03-2026.pth" 0 0 0 (-1)%Q None ∅
            (optim_new Adam (1 # 1000) (Some 0%Q)) (mkModel [] [])
            [5; 1; 9; 3; 7; 2; 8; 4; 6].

(** The parameter names of a [state_dict] with the sizes of their
    tensors: what a strict [load_state_dict] compares. *)
Definition signature (sd : StateDict) : list (string * nat) :=
  (λ kv, (kv.1, length kv.2)) <$> sd.


Definition demo_world_with (c : Checkpoint) : World :=
  mkWorld (demo_trainer 10 5) {[ "saved/BPR-Nov-03-2026.pth" := c ]} [] [].

(** The counters of [evaluate_pop] are in step: [n] buckets each, and in
    every bucket the positive hits are among the recommendations. *)
Definition stats_ok (n : nat) (st : PopStats) : Prop :=
  length (rec_num_list st) = n ∧ length (rec_pos_score st) = n ∧
  length (rec_pos_num st) = n ∧
  Forall2 (λ pos num, 0 <= pos <= num) (rec_pos_num st) (rec_num_list st).

(** ** [evaluate] *)

Module Evaluate.





Section WithEvaluation.
Context `{Evaluation}.




End WithEvaluation.

End Evaluate.
Export Evaluate.




(** The steps [evs] of a run are in order for a trainer validating every
    [eval_step] epochs: every validation follows the training of an epoch
    [e] with [(e + 1) % eval_step = 0], and the callback is invoked once
    per validation, with its epoch and score - or never, when there is
    none. *)
Definition steps_ok (eval_step : Z) (callback_fn : bool) (evs : list Event) : Prop :=
  Forall (λ ev : Z * Q, 0 < eval_step ∧ (ev.1 + 1) `mod` eval_step = 0
                        ∧ ev.1 ∈ trained_epochs evs)
         (validations evs) ∧
  callbacks evs = (if callback_fn then validations evs else []).



(** ** The constructors of the other subclasses of [Trainer] *)

Module Subclasses.

(** [KGTrainer]: a trainer with the two step counts of its schedule. *)
Record KGTrainer : Type := mkKGTrainer {
  kg_trainer : Trainer;
  train_rec_step : option Z;
  train_kg_step : option Z
}.

(** [MKRTrainer]: a trainer with the interval of its knowledge-graph
    epochs. *)
Record MKRTrainer : Type := mkMKRTrainer {
  mkr_trainer : Trainer;
  kge_interval : Z
}.

(** [KGTrainer.__init__(self, config, model)] (lines 738-742);
    [cfg_train_rec_step] and [cfg_train_kg_step] are
    [config['train_rec_step']] and [config['train_kg_step']]. *)
Definition KGTrainer__init__ (config : Config) (cfg_train_rec_step cfg_train_kg_step : option Z)
    (model : Model) (now : string) : outcome (KGTrainer * list LogRecord) :=
  '(t, warnings) ← Trainer__init__ config model None now;
  Ok (mkKGTrainer t cfg_train_rec_step cfg_train_kg_step, warnings).

(** [KGATTrainer.__init__(self, config, model)] (lines 766-767). *)
Definition KGATTrainer__init__ (config : Config) (model : Model) (now : string)
    : outcome (Trainer * list LogRecord) :=
  Trainer__init__ config model None now.

(** [S3RecTrainer.__init__(self, config, model)] (lines 794-795). *)
Definition S3RecTrainer__init__ (config : Config) (model : Model) (now : string)
    : outcome (Trainer * list LogRecord) :=
  Trainer__init__ config model None now.

(** [MKRTrainer.__init__(self, config, model)] (lines 852-854);
    [cfg_kge_interval] is [config['kge_interval']]. *)
Definition MKRTrainer__init__ (config : Config) (cfg_kge_interval : Z)
    (model : Model) (now : string) : outcome (MKRTrainer * list LogRecord) :=
  '(t, warnings) ← Trainer__init__ config model None now;
  Ok (mkMKRTrainer t cfg_kge_interval, warnings).

End Subclasses.
Export Subclasses.

(** ** [fit_dis] *)

Module FitDis.

(** How a call of [fit_dis] ends: it returns, it raises one of the
    exceptions of the methods it calls, or it raises [NameError] for a
    name that is bound nowhere. *)
Inductive DisOutcome (A : Type) : Type :=
| DisOk (a : A)
| DisRaise (e : exn)
| NameError (name : string).
Arguments DisOk {A} a.
Arguments DisRaise {A} e.
Arguments NameError {A} name.

Section WithCollaborators.
Context `{Collaborators}.

(** The body of the epoch loop of [fit_dis] (lines 255-316).  Training
    and the branch without validation are those of [fit].  The validation
    branch starts by evaluating the arguments of
    [self.dis_evaluate(valid_data, epoch=epoch_idx, writer=writer, ...)]
    (line 276): [writer] is no parameter, local or global of the module,
    so the call raises [NameError] before [dis_evaluate] is entered, and
    what follows in the branch is never run. *)
Definition fit_dis_epoch (train_data : list Interaction)
    (valid_data : option (list Interaction)) (saved : bool) (epoch_idx : Z)
    (w : World) : DisOutcome unit * World :=
  match fit_train train_data epoch_idx w with
  | (Raise e, w1) => (DisRaise e, w1)
  | (Ok _, w1) =>
      if (eval_step (self w1) <=? 0) || py_not valid_data then
        match when saved (_save_checkpoint epoch_idx) w1 with
        | (Ok _, w2) => (DisOk (), w2)
        | (Raise e, w2) => (DisRaise e, w2)
        end
      else if (epoch_idx + 1) `mod` eval_step (self w1) =? 0 then
        (NameError "writer", w1)
      else (DisOk (), w1)
  end.

Fixpoint fit_dis_loop (train_data : list Interaction)
    (valid_data : option (list Interaction)) (saved : bool) (epoch_idxs : list Z)
    (w : World) : DisOutcome unit * World :=
  match epoch_idxs with
  | [] => (DisOk (), w)
  | epoch_idx :: rest =>
      match fit_dis_epoch train_data valid_data saved epoch_idx w with
      | (DisOk _, w1) => fit_dis_loop train_data valid_data saved rest w1
      | (DisRaise e, w1) => (DisRaise e, w1)
      | (NameError name, w1) => (NameError name, w1)
      end
  end.

(** [fit_dis] *)
Definition fit_dis (train_data : list Interaction)
    (valid_data test_data : option (list Interaction)) (saved callback_fn : bool)
    (w : World) : DisOutcome (Q * option ValidResult) * World :=
  match when (saved && (epochs (self w) <=? start_epoch (self w)))
             (_save_checkpoint (-1)) w with
  | (Raise e, w0) => (DisRaise e, w0)
  | (Ok _, w0) =>
      match fit_dis_loop train_data valid_data saved
              (range (start_epoch (self w)) (epochs (self w))) w0 with
      | (DisOk _, w') =>
          (DisOk (best_valid_score (self w'), best_valid_result (self w')), w')
      | (DisRaise e, w') => (DisRaise e, w')
      | (NameError name, w') => (NameError name, w')
      end
  end.

End WithCollaborators.

End FitDis.
Export FitDis.

(* ===================================================================== *)
(** * Part II - properties                                                *)
(* ===================================================================== *)

(** ** Tensor lemmas *)

Lemma wrap_lt (n : nat) (i : Z) : in_bounds n i = true → (wrap n i < n)%nat.
Proof.
  unfold in_bounds, wrap. intros Hb.
  apply andb_true_iff in Hb as [H1 H2].
  apply Z.leb_le in H1. apply Z.ltb_lt in H2.
  destruct (i <? 0) eqn:E; [apply Z.ltb_lt in E | apply Z.ltb_ge in E]; lia.
Qed.

Lemma chunks_length (rows n : nat) (l : list float) : length (chunks rows n l) = rows.
Proof. revert l. induction rows as [|k IH]; intros l; simpl; [done | by rewrite IH]. Qed.

Lemma chunks_shape (rows n : nat) (l : list float) :
  length l = (rows * n)%nat → shape rows n (chunks rows n l).
Proof.
  intros Hl. split; [apply chunks_length |].
  revert l Hl. induction rows as [|k IH]; intros l Hl; simpl; constructor.
  - rewrite length_take. simpl in Hl. lia.
  - apply IH. rewrite length_drop. simpl in Hl. lia.
Qed.

Lemma chunks_cell (rows n : nat) (l : list float) (r c : nat) :
  (r < rows)%nat → (c < n)%nat →
  cell (chunks rows n l) r c = l !! (r * n + c)%nat.
Proof.
  unfold cell. revert l r. induction rows as [|k IH]; intros l r Hr Hc; [lia |].
  destruct r as [|r]; simpl.
  - by rewrite lookup_take_lt.
  - rewrite IH by lia. rewrite lookup_drop. f_equal. lia.
Qed.

Lemma view_ok (pred : list float) (rows n : nat) :
  n ≠ 0%nat → length pred = (rows * n)%nat →
  view pred n = Ok (chunks rows n pred).
Proof.
  intros Hn Hl. unfold view.
  destruct (decide (n = 0%nat)) as [|_]; [done |].
  rewrite Hl, Nat.Div0.mod_mul, Nat.div_mul by done.
  by destruct (decide (0 = 0)%nat).
Qed.

Lemma fill_column_shape (rows n c : nat) (v : float) (m : Matrix) :
  shape rows n m → shape rows n (fill_column m c v).
Proof.
  intros [Hl Hr]. split; unfold fill_column.
  - by rewrite length_fmap.
  - apply Forall_fmap. eapply Forall_impl; [exact Hr |].
    intros row Hrow. simpl. by rewrite length_insert.
Qed.

Lemma fill_column_cell (rows n c0 : nat) (v : float) (m : Matrix) (r c : nat) :
  shape rows n m → (r < rows)%nat → (c < n)%nat →
  cell (fill_column m c0 v) r c = if decide (c = c0) then Some v else cell m r c.
Proof.
  intros [Hl Hr] Hlt Hc. unfold cell, fill_column.
  rewrite list_lookup_fmap.
  destruct (m !! r) as [row|] eqn:E; simpl.
  - assert (length row = n) as Hrow.
    { eapply Forall_lookup_1 in Hr; eauto. }
    destruct (decide (c = c0)) as [->|Hne].
    + apply list_lookup_insert_eq. lia.
    + by rewrite list_lookup_insert_ne.
  - apply lookup_ge_None in E. lia.
Qed.

Lemma locate_ok (rows n : nat) (m : Matrix) (rc : Z * Z) :
  shape rows n m → in_bounds rows rc.1 = true → in_bounds n rc.2 = true →
  locate m rc = Ok (wrap rows rc.1, wrap n rc.2).
Proof.
  intros [Hl Hr] H1 H2. unfold locate, norm_index.
  rewrite Hl, H1. simpl.
  pose proof (wrap_lt _ _ H1) as Hlt.
  destruct (m !! wrap rows rc.1) as [row|] eqn:E.
  - assert (length row = n) as -> by (eapply Forall_lookup_1 in Hr; eauto).
    by rewrite H2.
  - apply lookup_ge_None in E. lia.
Qed.

Lemma write_ok (rows n : nat) (m : Matrix) (rc : Z * Z) (v : float) :
  shape rows n m → in_bounds rows rc.1 = true → in_bounds n rc.2 = true →
  ∃ m', write m rc v = Ok m' ∧ shape rows n m' ∧
    ∀ r c, (r < rows)%nat → (c < n)%nat →
      cell m' r c = if decide ((r, c) = (wrap rows rc.1, wrap n rc.2))
                    then Some v else cell m r c.
Proof.
  intros Hs H1 H2. unfold write. rewrite (locate_ok rows n) by done. simpl.
  eexists. split; [done |].
  destruct Hs as [Hl Hr]. split.
  - split; [by rewrite length_alter |].
    apply Forall_forall. intros row Hin.
    apply list_elem_of_lookup in Hin as [i Hi].
    destruct (decide (i = wrap rows rc.1)) as [->|Hne].
    + rewrite list_lookup_alter_eq in Hi.
      destruct (m !! wrap rows rc.1) as [row0|] eqn:E; simplify_eq/=.
      rewrite length_insert. eapply Forall_lookup_1 in Hr; eauto.
    + rewrite list_lookup_alter_ne in Hi by done.
      eapply Forall_lookup_1 in Hr; eauto.
  - intros r c Hlt Hc. unfold cell.
    destruct (decide (r = wrap rows rc.1)) as [->|Hne].
    + rewrite list_lookup_alter_eq.
      destruct (m !! wrap rows rc.1) as [row|] eqn:E; simpl.
      * assert (length row = n) as Hrow by (eapply Forall_lookup_1 in Hr; eauto).
        destruct (decide (c = wrap n rc.2)) as [->|Hnc].
        -- rewrite decide_True by done. apply list_lookup_insert_eq.
           pose proof (wrap_lt _ _ H2). lia.
        -- rewrite decide_False by congruence. by rewrite list_lookup_insert_ne.
      * apply lookup_ge_None in E. lia.
    + rewrite list_lookup_alter_ne by done.
      rewrite decide_False by congruence. done.
Qed.

Lemma fill_pairs_ok (rows n : nat) (v : float) (idx : list (Z * Z)) (m : Matrix) :
  shape rows n m → pairs_in_bounds rows n idx →
  ∃ m', foldM (λ acc rc, write acc rc v) m idx = Ok m' ∧ shape rows n m' ∧
    ∀ r c, (r < rows)%nat → (c < n)%nat →
      cell m' r c = if bool_decide ((r, c) ∈ positions rows n idx)
                    then Some v else cell m r c.
Proof.
  revert m. induction idx as [|rc idx IH]; intros m Hs Hb.
  - exists m. split; [done |]. split; [done |]. intros r c _ _.
    rewrite bool_decide_eq_false_2; [done | apply not_elem_of_nil].
  - apply Forall_cons in Hb as [[H1 H2] Hb].
    destruct (write_ok rows n m rc v Hs H1 H2) as (m1 & Hw & Hs1 & Hc1).
    destruct (IH m1 Hs1 Hb) as (m' & Hf & Hs' & Hc').
    exists m'. split; [simpl; by rewrite Hw |]. split; [done |].
    intros r c Hr Hc. rewrite Hc', Hc1 by done.
    change (positions rows n (rc :: idx))
      with ((wrap rows rc.1, wrap n rc.2) :: positions rows n idx).
    destruct (decide ((r, c) = (wrap rows rc.1, wrap n rc.2))) as [Heq|Hne];
      destruct (bool_decide ((r, c) ∈ positions rows n idx)) eqn:Hin.
    + rewrite bool_decide_eq_true_2; [done | rewrite Heq; apply list_elem_of_here].
    + rewrite bool_decide_eq_true_2; [done | rewrite Heq; apply list_elem_of_here].
    + apply bool_decide_eq_true_1 in Hin.
      rewrite bool_decide_eq_true_2; [done | by apply list_elem_of_further].
    + apply bool_decide_eq_false_1 in Hin.
      rewrite bool_decide_eq_false_2; [done |].
      intros [?|?]%elem_of_cons; congruence.
Qed.

(** ** Full-ranking masking *)

(** C5.  In full-ranking evaluation, the masking step (run before the swap
    corrections) returns a users x items score matrix in which column 0
    (the sentinel) and every position the history index lists hold
    negative infinity, and every other score is the model's prediction,
    unchanged.  The premises say that the prediction fills a
    [rows] x [n] matrix and that the history index addresses positions
    inside it. *)
Theorem full_sort_masking (pred : list float) (rows n : nat)
    (history_index : option (list Z * list Z)) (idx : list (Z * Z)) :
  n ≠ 0%nat →
  length pred = (rows * n)%nat →
  history_pairs history_index = Ok idx →
  pairs_in_bounds rows n idx →
  ∃ scores,
    mask_scores pred n history_index = Ok scores ∧
    shape rows n scores ∧
    ∀ r c, (r < rows)%nat → (c < n)%nat →
      cell scores r c =
        if bool_decide (c = 0%nat ∨ (r, c) ∈ positions rows n idx)
        then Some neg_inf
        else pred !! (r * n + c)%nat.
Proof.
  intros Hn Hlen Hidx Hb. unfold mask_scores.
  rewrite (view_ok pred rows n Hn Hlen). simpl.
  pose proof (chunks_shape rows n pred Hlen) as Hs0.
  pose proof (fill_column_shape rows n 0 neg_inf _ Hs0) as Hs1.
  destruct (fill_pairs_ok rows n neg_inf idx _ Hs1 Hb) as (m' & Hf & Hs' & Hc').
  assert (∀ r c, (r < rows)%nat → (c < n)%nat →
            cell (fill_column (chunks rows n pred) 0 neg_inf) r c =
              if decide (c = 0%nat) then Some neg_inf else pred !! (r * n + c)%nat)
    as Hcol.
  { intros r c Hr Hc. rewrite (fill_column_cell rows n) by done.
    destruct (decide (c = 0%nat)); [done | by apply chunks_cell]. }
  destruct history_index as [[hrow hcol]|]; simpl in Hidx.
  - unfold index_fill. rewrite Hidx. simpl.
    exists m'. split; [done |]. split; [done |].
    intros r c Hr Hc. rewrite Hc', Hcol by done.
    case_bool_decide as Hin.
    + rewrite bool_decide_eq_true_2 by (by right). done.
    + destruct (decide (c = 0%nat)) as [->|Hne].
      * by rewrite bool_decide_eq_true_2 by (by left).
      * rewrite bool_decide_eq_false_2; [done | intros [?|?]; done].
  - injection Hidx as <-.
    exists (fill_column (chunks rows n pred) 0 neg_inf).
    split; [done |]. split; [done |].
    intros r c Hr Hc. rewrite Hcol by done.
    destruct (decide (c = 0%nat)) as [->|Hne].
    + by rewrite bool_decide_eq_true_2 by (by left).
    + rewrite bool_decide_eq_false_2; [done |].
      intros [?|Hin]; [done |]. by apply not_elem_of_nil in Hin.
Qed.

(** The specification's instance: a 1 x 5 score row with history columns
    1 and 3. *)
Lemma full_sort_masking_witness :
  ∃ scores,
    mask_scores [1; 2; 3; 4; 5]%float 5 (Some ([0; 0], [1; 3])) = Ok scores ∧
    shape 1 5 scores ∧
    ∀ r c, (r < 1)%nat → (c < 5)%nat →
      cell scores r c =
        if bool_decide (c = 0%nat ∨ (r, c) ∈ positions 1 5 [(0, 1); (0, 3)])
        then Some neg_inf
        else [1; 2; 3; 4; 5]%float !! (r * 5 + c)%nat.
Proof.
  apply (full_sort_masking [1; 2; 3; 4; 5]%float 1 5
           (Some ([0; 0], [1; 3])) [(0, 1); (0, 3)]).
  - lia.
  - reflexivity.
  - reflexivity.
  - repeat constructor.
Defined.

Example mask_scores_row_1x5 :
  mask_scores [1; 2; 3; 4; 5]%float 5 (Some ([0; 0], [1; 3]))
  = Ok [[neg_inf; neg_inf; 3; neg_inf; 5]%float].
Proof. reflexivity. Qed.

(** ** Swap corrections *)

(** The specification's instance: scores [10, 20, 30, 40] and the
    swap instruction (row 0, before 1, after 3) leave the score 20 of
    column 1 in column 3. *)
Example swap_single_instruction :
  _full_sort_batch_eval [10; 20; 30; 40]%float 4
    (mkFullSortBatch [] None [0] [3] [1] [] [] [])
  = Ok ([], [[neg_inf; 20; 30; 20]%float]).
Proof. reflexivity. Qed.

(** C1.  On [chained_swaps] with scores [10, 20, 30, 40]: before the swaps
    column 2 holds 30; after them column 3 holds 20, the value the first
    statement stored in column 2, and not the pre-swap 30; and running the
    two statements in the other order ends with 30 there. *)
Theorem swap_second_set_reads_first_sets_writes :
  let pred := [10; 20; 30; 40]%float in
  ∃ before after other,
    mask_scores pred 4 (history_index chained_swaps) = Ok before ∧
    _full_sort_batch_eval pred 4 chained_swaps = Ok ([], after) ∧
    _full_sort_batch_eval_swapped_order pred 4 chained_swaps = Ok ([], other) ∧
    cell before 0 2 = Some 30%float ∧
    cell after 0 3 = Some 20%float ∧
    cell other 0 3 = Some 30%float ∧
    cell after 0 3 ≠ cell before 0 2 ∧
    after ≠ other.
Proof.
  exists [[neg_inf; 20; 30; 40]%float],
         [[neg_inf; 20; 20; 20]%float],
         [[neg_inf; 20; 20; 30]%float].
  repeat split; try reflexivity.
  - intros [=].
  - intros [=].
Qed.

(** ** The epoch loop and NaN losses *)

Section TrainEpoch.
Context `{Collaborators}.

Lemma accumulate_loss (total : option TotalLoss) (losses : Losses)
    (loss : float) (total' : TotalLoss) :
  accumulate total losses = Ok (loss, total') → loss = combined_loss losses.
Proof.
  unfold accumulate, combined_loss.
  destruct losses as [l|ls].
  - destruct total as [[]|]; intros; simplify_eq; done.
  - destruct total as [[]|]; simpl; try done;
      case_bool_decide; intros; simplify_eq; done.
Qed.

Lemma train_batches_app loss_func (total : option TotalLoss)
    (pre rest : list Interaction) (w : World) :
  train_batches loss_func total (pre ++ rest) w =
    match train_batches loss_func total pre w with
    | (Ok total', w') => train_batches loss_func total' rest w'
    | (Raise e, w') => (Raise e, w')
    end.
Proof.
  revert total w. induction pre as [|b pre IH]; intros total w; [done |].
  simpl. unfold mbind, M_bind.
  destruct (train_batch loss_func total b w) as [[total'|e] w']; [apply IH | done].
Qed.

(** What a batch with a NaN loss does to the world: the gradients are
    zeroed and nothing else changes. *)
Lemma train_batch_nan loss_func (total : option TotalLoss)
    (interaction : Interaction) (w : World) :
  PrimFloat.is_nan
    (combined_loss (loss_func (state_dict (model (self w))) interaction)) = true →
  ∃ e w',
    train_batch loss_func total interaction w = (Raise e, w') ∧
    e = match accumulate total
                (loss_func (state_dict (model (self w))) interaction) with
        | Ok _ => ValueError "Training loss is nan"
        | Raise e' => e'
        end ∧
    state_dict (model (self w')) = state_dict (model (self w)) ∧
    optimizer (self w') = optimizer (self w) ∧
    grad (model (self w')) = zero_grad (grad (model (self w))) ∧
    fs w' = fs w ∧ events w' = events w.
Proof.
  intros Hnan. unfold train_batch.
  unfold mbind, M_bind, modify_self, get_self, lift. simpl.
  destruct (accumulate total _) as [[loss total']|e] eqn:Hacc.
  - apply accumulate_loss in Hacc. subst loss.
    unfold _check_nan. rewrite Hnan. unfold raise.
    eexists _, _. split; [done |]. by repeat split.
  - eexists _, _. split; [done |]. by repeat split.
Qed.

(** C3.  When the batches before [interaction] have been trained without
    error and the combined loss of [interaction] is NaN, [_train_epoch]
    raises at that batch - [ValueError('Training loss is nan')], unless
    adding the loss to the running total already raised - whatever
    batches follow; the model parameters and the optimizer are those left
    by the batches before it: the batch is neither backpropagated (its
    gradients stay zeroed) nor stepped. *)
Theorem train_epoch_nan_raises (pre rest : list Interaction)
    (interaction : Interaction) (epoch_idx : Z)
    (loss_func : option (StateDict → Interaction → Losses))
    (total : option TotalLoss) (w w1 : World) :
  _train_epoch pre epoch_idx loss_func w = (Ok total, w1) →
  PrimFloat.is_nan
    (combined_loss (default calculate_loss loss_func
                      (state_dict (model (self w1))) interaction)) = true →
  ∃ e w',
    _train_epoch (pre ++ interaction :: rest) epoch_idx loss_func w = (Raise e, w') ∧
    e = match accumulate total
                (default calculate_loss loss_func
                   (state_dict (model (self w1))) interaction) with
        | Ok _ => ValueError "Training loss is nan"
        | Raise e' => e'
        end ∧
    state_dict (model (self w')) = state_dict (model (self w1)) ∧
    optimizer (self w') = optimizer (self w1) ∧
    grad (model (self w')) = zero_grad (grad (model (self w1))) ∧
    fs w' = fs w1 ∧ events w' = events w1.
Proof.
  unfold _train_epoch. intros Hpre Hnan.
  rewrite train_batches_app, Hpre. simpl.
  destruct (train_batch_nan _ total interaction w1 Hnan)
    as (e & w' & Hb & He & Hrest).
  exists e, w'. unfold mbind, M_bind at 1. rewrite Hb. done.
Qed.

End TrainEpoch.

(** One good batch, then a batch with a NaN loss, then one more. *)
Lemma train_epoch_nan_raises_witness :
  let C := demo_collaborators nan_on_bad [] in
  let w := demo_world 3 5 in
  let w1 := (@_train_epoch C [[("user_id", [1])]] 0 None w).2 in
  ∃ e w',
    @_train_epoch C ([[("user_id", [1])]] ++ [("bad", [])] :: [[("user_id", [2])]])
      0 None w = (Raise e, w') ∧
    e = ValueError "Training loss is nan" ∧
    state_dict (model (self w')) = [("step", [])] ∧
    optimizer (self w') = optimizer (self w1) ∧
    grad (model (self w')) = [] ∧
    fs w' = fs w1 ∧ events w' = events w1.
Proof.
  intros C w w1.
  exact (@train_epoch_nan_raises C [[("user_id", [1])]] [[("user_id", [2])]]
           [("bad", [])] 0 None (Some (TotalScalar 1%float)) w w1
           eq_refl eq_refl).
Defined.

(** ** Optimizer selection *)

(** C10.  For a learner name that, lower-cased, is none of [adam], [sgd],
    [adagrad], [rmsprop], [sparse_adam], [_build_optimizer] returns (it
    raises nothing) an Adam optimizer with the configured learning rate
    and torch's default weight decay 0, whatever [weight_decay] is
    configured, and logs one warning. *)
Theorem build_optimizer_fallback (learner : string) (learning_rate weight_decay : Q) :
  lower learner ∉ ["adam"; "sgd"; "adagrad"; "rmsprop"; "sparse_adam"] →
  _build_optimizer learner learning_rate weight_decay =
    (mkOptimizer Adam (mkOptStateDict learning_rate (Some 0%Q) []),
     [LogWarning "Received unrecognized optimizer, set default Adam optimizer"]).
Proof.
  intros Hnot. unfold _build_optimizer.
  repeat (case_decide as Heq;
          [exfalso; apply Hnot; rewrite Heq; set_solver |]; clear Heq).
  reflexivity.
Qed.

Lemma build_optimizer_fallback_witness :
  (lower "AdamW" ∉ ["adam"; "sgd"; "adagrad"; "rmsprop"; "sparse_adam"]) ∧
  _build_optimizer "AdamW" (1 # 1000) (1 # 10) =
    (mkOptimizer Adam (mkOptStateDict (1 # 1000) (Some 0%Q) []),
     [LogWarning "Received unrecognized optimizer, set default Adam optimizer"]).
Proof.
  assert (lower "AdamW" ∉ ["adam"; "sgd"; "adagrad"; "rmsprop"; "sparse_adam"]) as Hnot.
  { vm_compute. intros Hin. repeat (apply elem_of_cons in Hin as [Hin|Hin]; [discriminate |]).
    by apply not_elem_of_nil in Hin. }
  split; [exact Hnot |].
  exact (build_optimizer_fallback "AdamW" (1 # 1000) (1 # 10) Hnot).
Defined.

(** ** Checkpoints *)

(** What [_save_checkpoint epoch] stores for a trainer. *)
Lemma save_checkpoint_run (epoch : Z) (w : World) :
  _save_checkpoint epoch w =
    (Ok (),
     mkWorld (self w)
       (<[saved_model_file (self w) :=
            mkCheckpoint (config (self w)) epoch (cur_step (self w))
              (best_valid_score (self w)) (state_dict (model (self w)))
              (opt_state_dict (optimizer (self w)))]> (fs w))
       (logs w) (events w ++ [Saved epoch])).
Proof. reflexivity. Qed.




(** ** Running methods: the state-passing monad *)

Lemma bind_run {A B} (m : M A) (f : A → M B) (w : World) :
  (m ≫= f) w = match m w with
               | (Ok a, w') => f a w'
               | (Raise e, w') => (Raise e, w')
               end.
Proof. reflexivity. Qed.

Lemma Qlt_bool_iff (x y : Q) : Qlt_bool x y = true ↔ (x < y)%Q.
Proof.
  unfold Qlt_bool. rewrite negb_true_iff.
  split.
  - intros Hb. apply Qnot_le_lt. intros Hle. apply Qle_bool_iff in Hle. congruence.
  - intros Hlt. destruct (Qle_bool y x) eqn:E; [| done].
    apply Qle_bool_iff in E. exfalso. by apply (Qlt_not_le x y).
Qed.

(** ** What training leaves alone *)

Section Frames.
Context `{Collaborators}.

Lemma train_batch_frame loss_func (total : option TotalLoss)
    (interaction : Interaction) (w : World) :
  let '(_, w') := train_batch loss_func total interaction w in
  fs w' = fs w ∧ logs w' = logs w ∧ events w' = events w ∧
  progress (self w') = progress (self w) ∧
  train_loss_dict (self w') = train_loss_dict (self w).
Proof.
  cbv [train_batch mbind M_bind modify_self get_self lift _check_nan raise
       mret M_ret]. simpl.
  destruct (accumulate total _) as [[loss total']|e]; [| done].
  destruct (PrimFloat.is_nan loss); [done |].
  destruct (clip_grad_norm _); simpl;
    destruct (optimizer_step _ _); done.
Qed.

Lemma train_batches_frame loss_func (train_data : list Interaction)
    (total : option TotalLoss) (w : World) :
  let '(_, w') := train_batches loss_func total train_data w in
  fs w' = fs w ∧ logs w' = logs w ∧ events w' = events w ∧
  progress (self w') = progress (self w) ∧
  train_loss_dict (self w') = train_loss_dict (self w).
Proof.
  revert total w. induction train_data as [|b rest IH]; intros total w; [done |].
  simpl. rewrite bind_run.
  pose proof (train_batch_frame loss_func total b w) as Hb.
  destruct (train_batch loss_func total b w) as [[total'|e] w1]; [| done].
  specialize (IH total' w1).
  destruct (train_batches loss_func total' rest w1) as [r w2].
  destruct Hb as (? & ? & ? & ? & ?), IH as (? & ? & ? & ? & ?).
  repeat split; congruence.
Qed.

Lemma fit_train_frame (train_data : list Interaction) (epoch_idx : Z) (w : World) :
  let '(r, w') := fit_train train_data epoch_idx w in
  fs w' = fs w ∧ logs w' = logs w ∧
  progress (self w') = progress (self w) ∧
  (∀ u, r = Ok u → events w' = events w ++ [Trained epoch_idx]).
Proof.
  unfold fit_train, _train_epoch. rewrite bind_run.
  pose proof (train_batches_frame (default calculate_loss None) train_data None w) as Hb.
  destruct (train_batches _ None train_data w) as [[total|e] w1];
    destruct Hb as (Hfs & Hlogs & Hev & Hp & _).
  - cbv [mbind M_bind modify_self emit lift]. simpl.
    rewrite Hfs, Hlogs, Hev. destruct total; simpl; repeat split; done.
  - done.
Qed.

End Frames.

(** ** [fit] without validation data *)

Section FitNoValidation.
Context `{Collaborators}.




End FitNoValidation.


(** ** Early stopping in [fit] *)

Section FitValidation.
Context `{Collaborators}.

(** One validation: the outcome of [early_stopping] is stored in the
    trainer and decides whether the loop goes on. *)
Lemma fit_validate_run (valid_data : list Interaction) (saved callback_fn : bool)
    (epoch_idx : Z) (w : World) :
  let t := self w in
  let v := calculate_valid_score
             (evaluate_model (state_dict (model t)) valid_data) (valid_metric t) in
  let r := early_stopping v (best_valid_score t) (cur_step t)
             (stopping_step t) (valid_metric_bigger t) in
  ∃ w',
    fit_validate valid_data saved callback_fn epoch_idx w
      = (Ok (if r.1.2 then Break else Continue), w') ∧
    best_valid_score (self w') = r.1.1.1 ∧
    cur_step (self w') = r.1.1.2 ∧
    valid_metric_bigger (self w') = valid_metric_bigger t.
Proof.
  intros t v r. subst t v r.
  cbv [fit_validate _valid_epoch early_stopping mbind M_bind get_self mret M_ret
       emit modify_self when _save_checkpoint write_file]. simpl.
  set (v := calculate_valid_score _ _).
  destruct (valid_metric_bigger (self w)) eqn:Ebig;
    [destruct (Qlt_bool (best_valid_score (self w)) v)
    |destruct (Qlt_bool v (best_valid_score (self w)))];
    destruct saved, callback_fn; simpl;
    match goal with |- context [(?a <=? ?b)] => destruct (a <=? b) end;
    simpl; eexists; (split; [reflexivity |]); simpl; rewrite ?Ebig; done.
Qed.

Lemma better_iff (bigger : bool) (value best : Q) :
  (if bigger then Qlt_bool best value else Qlt_bool value best) = true
  ↔ better bigger value best.
Proof. unfold better. destruct bigger; apply Qlt_bool_iff. Qed.

Lemma no_regress_refl (bigger : bool) (b : Q) : no_regress bigger b b.
Proof. unfold no_regress. destruct bigger; apply Qle_refl. Qed.

Lemma no_regress_trans (bigger : bool) (a b c : Q) :
  no_regress bigger a b → no_regress bigger b c → no_regress bigger a c.
Proof.
  unfold no_regress. destruct bigger; intros Hab Hbc.
  - by apply (Qle_trans _ b).
  - by apply (Qle_trans _ b).
Qed.

(** What follows the training of an epoch, in every case. *)
Lemma fit_eval_run (valid_data : option (list Interaction)) (saved callback_fn : bool)
    (epoch_idx : Z) (w : World) :
  let t := self w in
  let v := calculate_valid_score
             (evaluate_model (state_dict (model t)) (default [] valid_data))
             (valid_metric t) in
  ∃ ctl w',
    fit_eval valid_data saved callback_fn epoch_idx w = (Ok ctl, w') ∧
    valid_metric_bigger (self w') = valid_metric_bigger t ∧
    if evaluates t valid_data epoch_idx then
      (better (valid_metric_bigger t) v (best_valid_score t) →
         cur_step (self w') = 0 ∧ best_valid_score (self w') = v) ∧
      (¬ better (valid_metric_bigger t) v (best_valid_score t) →
         cur_step (self w') = cur_step t + 1 ∧
         best_valid_score (self w') = best_valid_score t) ∧
      (ctl = Break ↔ stopping_step t <= cur_step (self w'))
    else
      ctl = Continue ∧
      cur_step (self w') = cur_step t ∧
      best_valid_score (self w') = best_valid_score t.
Proof.
  intros t v. subst t.
  unfold fit_eval, evaluates. rewrite bind_run. cbv [get_self].
  destruct ((eval_step (self w) <=? 0) || py_not valid_data) eqn:Eskip; simpl.
  - destruct saved; simpl; eexists _, _; (split; [reflexivity |]); done.
  - destruct ((epoch_idx + 1) `mod` eval_step (self w) =? 0) eqn:Emod.
    + destruct (fit_validate_run (default [] valid_data) saved callback_fn
                  epoch_idx w) as (w' & Hrun & Hbest & Hstep & Hbig).
      fold v in Hrun, Hbest, Hstep.
      eexists _, w'. split; [exact Hrun |]. split; [exact Hbig |].
      unfold early_stopping in *. simpl in *.
      pose proof (better_iff (valid_metric_bigger (self w)) v
                    (best_valid_score (self w))) as Hiff.
      destruct (if valid_metric_bigger (self w)
                then Qlt_bool (best_valid_score (self w)) v
                else Qlt_bool v (best_valid_score (self w))) eqn:Eimp.
      * split; [done |]. split; [intros Hn; destruct Hn; by apply Hiff |].
        rewrite Hstep.
        destruct (stopping_step (self w) <=? 0) eqn:Estop.
        -- apply Z.leb_le in Estop. done.
        -- apply Z.leb_gt in Estop. split; [done | lia].
      * split; [intros Hb; apply Hiff in Hb; done |]. split; [done |].
        rewrite Hstep.
        destruct (stopping_step (self w) <=? cur_step (self w) + 1) eqn:Estop.
        -- apply Z.leb_le in Estop. done.
        -- apply Z.leb_gt in Estop. split; [done | lia].
    + eexists _, _. split; [reflexivity |]. done.
Qed.

(** An epoch of [fit] never makes the best score worse, also when it
    raises. *)
Lemma fit_epoch_no_regress (train_data : list Interaction)
    (valid_data : option (list Interaction)) (saved callback_fn : bool)
    (epoch_idx : Z) (w : World) :
  let '(_, w') := fit_epoch train_data valid_data saved callback_fn epoch_idx w in
  valid_metric_bigger (self w') = valid_metric_bigger (self w) ∧
  no_regress (valid_metric_bigger (self w))
    (best_valid_score (self w)) (best_valid_score (self w')).
Proof.
  unfold fit_epoch. rewrite bind_run.
  pose proof (fit_train_frame train_data epoch_idx w) as Hframe.
  destruct (fit_train train_data epoch_idx w) as [[[]|e] w1].
  - destruct Hframe as (_ & _ & Hp & _).
    injection Hp as _ _ _ _ _ Hbig _ _ Hstep Hbest _.
    destruct (fit_eval_run valid_data saved callback_fn epoch_idx w1)
      as (ctl & w' & Hrun & Hbig' & Hcases).
    rewrite Hrun. split; [congruence |].
    rewrite <- Hbig, <- Hbest.
    destruct (evaluates (self w1) valid_data epoch_idx).
    + destruct Hcases as (Hyes & Hno & _).
      set (v := calculate_valid_score _ _) in *.
      pose proof (better_iff (valid_metric_bigger (self w1)) v
                    (best_valid_score (self w1))) as Hiff.
      destruct (if valid_metric_bigger (self w1)
                then Qlt_bool (best_valid_score (self w1)) v
                else Qlt_bool v (best_valid_score (self w1)));
        [assert (better (valid_metric_bigger (self w1)) v
                   (best_valid_score (self w1))) as Hb by (by apply Hiff)
        |assert (¬ better (valid_metric_bigger (self w1)) v
                   (best_valid_score (self w1))) as Hb
           by (intros Hb; apply Hiff in Hb; done)].
      * destruct (Hyes Hb) as [_ ->].
        unfold better, no_regress in *.
        destruct (valid_metric_bigger (self w1)); by apply Qlt_le_weak.
      * destruct (Hno Hb) as [_ ->]. apply no_regress_refl.
    + destruct Hcases as (_ & _ & ->). apply no_regress_refl.
  - destruct Hframe as (_ & _ & Hp & _).
    injection Hp as _ _ _ _ _ Hbig _ _ Hstep Hbest _.
    rewrite Hbig, Hbest. split; [done | apply no_regress_refl].
Qed.

(** The steps of the epoch loop. *)
Lemma fit_loop_step (train_data : list Interaction)
    (valid_data : option (list Interaction)) (saved callback_fn : bool)
    (epoch_idx : Z) (rest : list Z) (w : World) :
  fit_loop train_data valid_data saved callback_fn (epoch_idx :: rest) w =
    match fit_epoch train_data valid_data saved callback_fn epoch_idx w with
    | (Ok Break, w') => (Ok (), w')
    | (Ok Continue, w') => fit_loop train_data valid_data saved callback_fn rest w'
    | (Raise e, w') => (Raise e, w')
    end.
Proof.
  cbn [fit_loop]. rewrite bind_run.
  destruct (fit_epoch _ _ _ _ _ w) as [[[]|e] w']; done.
Qed.

Lemma fit_loop_no_regress (train_data : list Interaction)
    (valid_data : option (list Interaction)) (saved callback_fn : bool)
    (epoch_idxs : list Z) (w : World) :
  let '(_, w') := fit_loop train_data valid_data saved callback_fn epoch_idxs w in
  valid_metric_bigger (self w') = valid_metric_bigger (self w) ∧
  no_regress (valid_metric_bigger (self w))
    (best_valid_score (self w)) (best_valid_score (self w')).
Proof.
  revert w. induction epoch_idxs as [|e rest IH]; intros w.
  - simpl. split; [done | apply no_regress_refl].
  - rewrite fit_loop_step.
    pose proof (fit_epoch_no_regress train_data valid_data saved callback_fn e w)
      as Hepoch.
    destruct (fit_epoch _ _ _ _ e w) as [[[]|x] w1]; try done.
    specialize (IH w1).
    destruct (fit_loop _ _ _ _ rest w1) as [r w'].
    destruct Hepoch as [Hbig Hle], IH as [Hbig' Hle'].
    split; [congruence |].
    rewrite Hbig in Hle'. by eapply no_regress_trans.
Qed.

(** C2.  In a run of [fit] (the early-stopping update being the one the
    specification gives):
    - after each trained epoch, if the epoch is validated, [cur_step]
      becomes 0 and [best_valid_score] the new score when the score is
      strictly better than the best one, and otherwise [cur_step] grows
      by one and [best_valid_score] stays; the iteration ends in [break]
      exactly when [cur_step] has then reached [stopping_step]; if the
      epoch is not validated, both stay as they are and the loop goes on;
    - a [break] ends the loop, the remaining epochs are not run;
    - over any stretch of epochs from any state, and over [fit] as a
      whole, [best_valid_score] never gets worse for the metric's
      polarity (it does not decrease when bigger is better, does not
      increase otherwise). *)
Theorem early_stopping_in_fit (train_data : list Interaction)
    (valid_data : option (list Interaction)) (saved callback_fn : bool) :
  (∀ (epoch_idx : Z) (w : World),
     let t := self w in
     let v := calculate_valid_score
                (evaluate_model (state_dict (model t)) (default [] valid_data))
                (valid_metric t) in
     ∃ ctl w',
       fit_eval valid_data saved callback_fn epoch_idx w = (Ok ctl, w') ∧
       if evaluates t valid_data epoch_idx then
         (better (valid_metric_bigger t) v (best_valid_score t) →
            cur_step (self w') = 0 ∧ best_valid_score (self w') = v) ∧
         (¬ better (valid_metric_bigger t) v (best_valid_score t) →
            cur_step (self w') = cur_step t + 1 ∧
            best_valid_score (self w') = best_valid_score t) ∧
         (ctl = Break ↔ stopping_step t <= cur_step (self w'))
       else
         ctl = Continue ∧
         cur_step (self w') = cur_step t ∧
         best_valid_score (self w') = best_valid_score t) ∧
  (∀ (epoch_idx : Z) (rest : list Z) (w : World),
     fit_loop train_data valid_data saved callback_fn (epoch_idx :: rest) w =
       match fit_epoch train_data valid_data saved callback_fn epoch_idx w with
       | (Ok Break, w') => (Ok (), w')
       | (Ok Continue, w') =>
           fit_loop train_data valid_data saved callback_fn rest w'
       | (Raise e, w') => (Raise e, w')
       end) ∧
  (∀ (epoch_idxs : list Z) (w : World),
     no_regress (valid_metric_bigger (self w)) (best_valid_score (self w))
       (best_valid_score
          (self (fit_loop train_data valid_data saved callback_fn epoch_idxs w).2))) ∧
  (∀ w : World,
     no_regress (valid_metric_bigger (self w)) (best_valid_score (self w))
       (best_valid_score (self (fit train_data valid_data saved callback_fn w).2))).
Proof.
  split; [| split; [| split]].
  - intros epoch_idx w.
    destruct (fit_eval_run valid_data saved callback_fn epoch_idx w)
      as (ctl & w' & Hrun & _ & Hcases).
    by exists ctl, w'.
  - apply fit_loop_step.
  - intros epoch_idxs w.
    pose proof (fit_loop_no_regress train_data valid_data saved callback_fn
                  epoch_idxs w) as Hloop.
    destruct (fit_loop _ _ _ _ epoch_idxs w) as [r w']. by destruct Hloop.
  - intros w. unfold fit. rewrite bind_run. cbv [get_self].
    rewrite bind_run.
    set (es := range _ _).
    assert (∃ w0, when (saved && (epochs (self w) <=? start_epoch (self w)))
                    (_save_checkpoint (-1)) w = (Ok (), w0) ∧ self w0 = self w)
      as (w0 & -> & Hself).
    { destruct (saved && _); cbv [when];
        [rewrite save_checkpoint_run |]; eexists; split; reflexivity. }
    rewrite bind_run.
    pose proof (fit_loop_no_regress train_data valid_data saved callback_fn es w0)
      as Hloop.
    destruct (fit_loop _ _ _ _ es w0) as [[[]|e] w']; rewrite Hself in Hloop;
      by destruct Hloop.
Qed.

End FitValidation.

(** A run with patience 2 whose validation scores are 1/2, 2/5, 3/10:
    the first improves on -1 and is checkpointed, the next two do not,
    and the loop stops after the third of the ten epochs. *)
Example fit_early_stop_run :
  let C := demo_collaborators nan_on_bad [0; 1 # 2; 2 # 5; 3 # 10; 9 # 10]%Q in
  let '(r, w') := @fit C [[("user_id", [1])]] (Some [[("user_id", [7])]])
                    true false (demo_world 10 2) in
  r = Ok (1 # 2, Some [("recall@10", 1 # 2)])%Q ∧
  cur_step (self w') = 2 ∧
  events w' = [Trained 0; Validated 0 (1 # 2); Saved 0;
               Trained 1; Validated 1 (2 # 5);
               Trained 2; Validated 2 (3 # 10); Stopped 2].
Proof. vm_compute. done. Qed.

(** ** Construction *)

(** The trainer the examples run is the one [Trainer.__init__] builds from
    its configuration. *)
Example demo_trainer_init (epochs stopping_step : Z) :
  Trainer__init__ (demo_config epochs stopping_step) (mkModel [] [])
    (Some [5; 1; 9; 3; 7; 2; 8; 4; 6]) "Nov-03-2026"
  = Ok (demo_trainer epochs stopping_step, []).
Proof. reflexivity. Qed.

(** ** The single-epoch trainer *)

(** C8.  Constructing a [TraditionalTrainer] raises [TypeError], whatever
    the configuration: its [__init__] calls [Trainer.__init__] without the
    [item_popularity] argument that has no default, so [self.epochs = 1]
    is never reached and no trainer exists to [fit]. *)
Theorem traditional_trainer_init_raises (config : Config) (model : Model)
    (now : string) :
  TraditionalTrainer__init__ config model now =
    Raise (TypeError "__init__() missing 1 required positional argument: 'item_popularity'").
Proof. reflexivity. Qed.

(** With the argument supplied, [Trainer.__init__] succeeds; a
    trainer whose [epochs] is then set to 1 has the epoch list [[0]],
    whatever budget the configuration asks for. *)
Lemma single_epoch_budget (config : Config) (model : Model)
    (item_popularity : list Z) (now : string) :
  ∃ t warnings,
    Trainer__init__ config model (Some item_popularity) now = Ok (t, warnings) ∧
    range (start_epoch (set_epochs 1 t)) (epochs (set_epochs 1 t)) = [0].
Proof.
  unfold Trainer__init__.
  destruct (_build_optimizer _ _ _) as [opt warnings].
  eexists _, _. split; reflexivity.
Qed.

(** ** The recommendation list *)

(** C9.  Two batches of one user each, top-2 of four items: the file ends
    with the lines of the second batch only - the first batch's lines are
    gone, since the file is opened with mode ['w'] once per batch - and
    they carry the first user's name, [user_mp] being indexed by the row
    within the batch.  Each batch alone gives its two lines, ranks
    1 and 2 in descending score order. *)
Theorem write_rec_list_keeps_last_batch :
  let config := demo_config 10 5 in
  let run eval_data :=
    write_rec_list demo_predict 4 config "rec.txt" eval_data
      ["u1"; "u2"] ["a"; "b"; "c"] ∅ in
  run [demo_batch 1] = Ok {[ "rec.txt" := ["u1" +:+ tab +:+ "a" +:+ tab +:+ "1";
                                           "u1" +:+ tab +:+ "c" +:+ tab +:+ "2"] ]} ∧
  run [demo_batch 2] = Ok {[ "rec.txt" := ["u1" +:+ tab +:+ "b" +:+ tab +:+ "1";
                                           "u1" +:+ tab +:+ "c" +:+ tab +:+ "2"] ]} ∧
  run [demo_batch 1; demo_batch 2] = run [demo_batch 2].
Proof. vm_compute. done. Qed.

(** ** Popularity buckets *)

Lemma getitem_nat {A} (l : list A) (k : nat) (x : A) :
  l !! k = Some x → getitem l (Z.of_nat k) = Ok x.
Proof.
  intros Hk. pose proof (lookup_lt_Some _ _ _ Hk) as Hlt.
  unfold getitem, norm_index, in_bounds, wrap.
  replace (- Z.of_nat (length l) <=? Z.of_nat k) with true
    by (symmetry; apply Z.leb_le; lia).
  replace (Z.of_nat k <? Z.of_nat (length l)) with true
    by (symmetry; apply Z.ltb_lt; lia).
  replace (Z.of_nat k <? 0) with false by (symmetry; apply Z.ltb_ge; lia).
  simpl. rewrite Nat2Z.id, Hk. done.
Qed.





(** Buckets of the table 1..9 cut at 4 and 7: popularities 4 and 7,
    on the boundaries, fall in the bucket below the boundary. *)
Example boundary_goes_to_lower_bucket :
  get_threshes [5; 1; 9; 3; 7; 2; 8; 4; 6] 3 = Ok [4; 7] ∧
  find_bucket [4; 7] 3 4 (seq 0 3) = Ok (Some 0%nat) ∧
  find_bucket [4; 7] 3 5 (seq 0 3) = Ok (Some 1%nat) ∧
  find_bucket [4; 7] 3 7 (seq 0 3) = Ok (Some 1%nat) ∧
  find_bucket [4; 7] 3 8 (seq 0 3) = Ok (Some 2%nat).
Proof. vm_compute. done. Qed.


(** ** One swap statement, and two that do not meet *)

Lemma zip_index_same_length (rows cols : list Z) :
  length rows = length cols → zip_index rows cols = Ok (zip rows cols).
Proof. intros Hl. unfold zip_index. by rewrite decide_True. Qed.

Lemma positions_lt (rows n : nat) (idx : list (Z * Z)) (k : nat) (p : nat * nat) :
  pairs_in_bounds rows n idx → positions rows n idx !! k = Some p →
  (p.1 < rows)%nat ∧ (p.2 < n)%nat.
Proof.
  intros Hb Hk. unfold positions in Hk. rewrite list_lookup_fmap in Hk.
  destruct (idx !! k) as [rc|] eqn:E; [| done]. simplify_eq/=.
  eapply Forall_lookup_1 in Hb as [H1 H2]; [| exact E].
  split; by apply wrap_lt.
Qed.

(** Reading a list of in-range cells. *)
Lemma gather_ok (rows n : nat) (m : Matrix) (idx : list (Z * Z)) :
  shape rows n m → pairs_in_bounds rows n idx →
  ∃ vals, mapM (read m) idx = Ok vals ∧ length vals = length idx ∧
    ∀ k p, positions rows n idx !! k = Some p → cell m p.1 p.2 = vals !! k.
Proof.
  intros Hs. induction idx as [|rc idx IH]; intros Hb.
  - exists []. by repeat split.
  - apply Forall_cons in Hb as [[H1 H2] Hb].
    destruct (IH Hb) as (vals & Hm & Hl & Hv).
    assert (∃ x, cell m (wrap rows rc.1) (wrap n rc.2) = Some x) as [x Hx].
    { destruct Hs as [Hlen Hrows]. unfold cell.
      pose proof (wrap_lt _ _ H1) as Hr. pose proof (wrap_lt _ _ H2) as Hc.
      destruct (m !! wrap rows rc.1) as [row|] eqn:E.
      - simpl. apply lookup_lt_is_Some_2.
        eapply Forall_lookup_1 in Hrows; [| exact E]. simpl in Hrows. lia.
      - apply lookup_ge_None in E. lia. }
    exists (x :: vals). split; [| split].
    + assert (read m rc = Ok x) as Hr.
      { unfold read. rewrite (locate_ok rows n) by done. simpl. by rewrite Hx. }
      cbn [mapM]. rewrite Hr, Hm. done.
    + simpl. by rewrite Hl.
    + intros [|k] p Hk; simpl in *.
      * by simplify_eq.
      * by apply Hv.
Qed.

(** Storing values at pairwise distinct in-range cells. *)
Lemma scatter_ok (rows n : nat) (ivs : list ((Z * Z) * float)) (m : Matrix) :
  shape rows n m → pairs_in_bounds rows n ivs.*1 →
  NoDup (positions rows n ivs.*1) →
  ∃ m', foldM (λ acc '(rc, v), write acc rc v) m ivs = Ok m' ∧ shape rows n m' ∧
    (∀ k p, positions rows n ivs.*1 !! k = Some p →
       cell m' p.1 p.2 = ivs.*2 !! k) ∧
    (∀ r c, (r < rows)%nat → (c < n)%nat → (r, c) ∉ positions rows n ivs.*1 →
       cell m' r c = cell m r c).
Proof.
  revert m. induction ivs as [|[rc v] ivs IH]; intros m Hs Hb Hnd.
  - exists m. split; [done |]. split; [done |].
    split; [intros k p Hk; simpl in Hk; by rewrite lookup_nil in Hk | done].
  - cbn [fmap list_fmap fst] in Hb, Hnd.
    apply Forall_cons in Hb as [[H1 H2] Hb].
    change (positions rows n (rc :: ivs.*1))
      with ((wrap rows rc.1, wrap n rc.2) :: positions rows n ivs.*1) in *.
    apply NoDup_cons in Hnd as [Hfresh Hnd].
    destruct (write_ok rows n m rc v Hs H1 H2) as (m1 & Hw & Hs1 & Hc1).
    destruct (IH m1 Hs1 Hb Hnd) as (m' & Hf & Hs' & Hat & Hother).
    exists m'. split; [cbn [foldM]; by rewrite Hw |]. split; [done |]. split.
    + intros [|k] p Hk; simpl in Hk.
      * simplify_eq/=.
        rewrite Hother by (try apply wrap_lt; done).
        rewrite Hc1 by (apply wrap_lt; done). by rewrite decide_True.
      * simpl. by apply Hat.
    + intros r c Hr Hc Hnot.
      rewrite Hother by (try done; intros Hin; apply Hnot; by right).
      rewrite Hc1 by done. rewrite decide_False; [done |].
      intros Heq. apply Hnot. rewrite Heq. by left.
Qed.

(** The effect of one swap statement. *)
Lemma swap_statement_run (rows n : nat) (scores : Matrix) (row after before : list Z) :
  shape rows n scores →
  length row = length after →
  length row = length before →
  pairs_in_bounds rows n (swap_sources row before) →
  pairs_in_bounds rows n (swap_targets row after) →
  NoDup (positions rows n (swap_targets row after)) →
  ∃ scores',
    swap_statement scores row after before = Ok scores' ∧
    shape rows n scores' ∧
    (∀ k d s,
       positions rows n (swap_targets row after) !! k = Some d →
       positions rows n (swap_sources row before) !! k = Some s →
       cell scores' d.1 d.2 = cell scores s.1 s.2) ∧
    (∀ r c, (r < rows)%nat → (c < n)%nat →
       (r, c) ∉ positions rows n (swap_targets row after) →
       cell scores' r c = cell scores r c).
Proof.
  intros Hs Hla Hlb Hsrc Htgt Hnd. unfold swap_sources, swap_targets in *.
  unfold swap_statement, index_get, index_put.
  rewrite !zip_index_same_length by done. simpl.
  destruct (gather_ok rows n scores (zip row before) Hs Hsrc)
    as (vals & Hm & Hl & Hv).
  rewrite Hm. simpl.
  assert (length vals = length (zip row after)) as Hlen.
  { rewrite Hl, !length_zip. lia. }
  rewrite decide_True by done. simpl.
  assert ((zip (zip row after) vals).*1 = zip row after) as Hfst
    by (apply fst_zip; lia).
  assert ((zip (zip row after) vals).*2 = vals) as Hsnd
    by (apply snd_zip; lia).
  destruct (scatter_ok rows n (zip (zip row after) vals) scores Hs)
    as (m' & Hf & Hs' & Hat & Hother); rewrite ?Hfst; try done.
  rewrite Hfst, Hsnd in *.
  exists m'. split; [done |]. split; [done |]. split; [| done].
  intros k d s Hd Hsrc_k. rewrite (Hat k d Hd). symmetry. by apply Hv.
Qed.

(** X1.  One statement [scores[row, after] = tmp_scores[row, before]]
    whose index tensors have one length, lie within the matrix and name
    pairwise distinct target cells: every target cell ends with the score
    its source cell held before the statement - also when a source is
    itself a target, since the right-hand side is gathered first - and
    every other cell keeps its score. *)
Theorem swap_statement_spec (rows n : nat) (scores : Matrix) (row after before : list Z) :
  shape rows n scores →
  length row = length after →
  length row = length before →
  pairs_in_bounds rows n (swap_sources row before) →
  pairs_in_bounds rows n (swap_targets row after) →
  NoDup (positions rows n (swap_targets row after)) →
  ∃ scores',
    swap_statement scores row after before = Ok scores' ∧
    shape rows n scores' ∧
    (∀ k d s,
       positions rows n (swap_targets row after) !! k = Some d →
       positions rows n (swap_sources row before) !! k = Some s →
       cell scores' d.1 d.2 = cell scores s.1 s.2) ∧
    (∀ r c, (r < rows)%nat → (c < n)%nat →
       (r, c) ∉ positions rows n (swap_targets row after) →
       cell scores' r c = cell scores r c).
Proof. apply swap_statement_run. Qed.

Lemma swap_statement_spec_witness :
  ∃ scores',
    swap_statement [[1; 2; 3; 4]%float] [0; 0] [1; 2] [2; 1] = Ok scores' ∧
    shape 1 4 scores' ∧
    (∀ k d s,
       positions 1 4 (swap_targets [0; 0] [1; 2]) !! k = Some d →
       positions 1 4 (swap_sources [0; 0] [2; 1]) !! k = Some s →
       cell scores' d.1 d.2 = cell [[1; 2; 3; 4]%float] s.1 s.2) ∧
    (∀ r c, (r < 1)%nat → (c < 4)%nat →
       (r, c) ∉ positions 1 4 (swap_targets [0; 0] [1; 2]) →
       cell scores' r c = cell [[1; 2; 3; 4]%float] r c).
Proof.
  apply (swap_statement_spec 1 4 [[1; 2; 3; 4]%float] [0; 0] [1; 2] [2; 1]).
  - split; [reflexivity | repeat constructor].
  - reflexivity.
  - reflexivity.
  - repeat constructor.
  - repeat constructor.
  - apply (bool_decide_unpack _). vm_compute. exact I.
Defined.

Lemma mask_scores_shape (pred : list float) (rows n : nat)
    (history_index : option (list Z * list Z)) (idx : list (Z * Z)) :
  n ≠ 0%nat → length pred = (rows * n)%nat →
  history_pairs history_index = Ok idx → pairs_in_bounds rows n idx →
  ∃ scores, mask_scores pred n history_index = Ok scores ∧ shape rows n scores.
Proof.
  intros Hn Hlen Hidx Hb. unfold mask_scores.
  rewrite (view_ok pred rows n Hn Hlen). simpl.
  pose proof (fill_column_shape rows n 0 neg_inf _ (chunks_shape rows n pred Hlen))
    as Hs1.
  destruct (fill_pairs_ok rows n neg_inf idx _ Hs1 Hb) as (m' & Hf & Hs' & _).
  destruct history_index as [[hrow hcol]|]; simpl in Hidx.
  - unfold index_fill. rewrite Hidx. simpl. by exists m'.
  - by eexists.
Qed.

(** X2.  [_full_sort_batch_eval] with two swap sets that do not meet -
    all target cells of both sets pairwise distinct, no source cell of
    the second set a target of the first: every target cell of either set
    ends with the score its source cell had after masking, before any
    swap, and every other cell keeps its masked score. *)
Theorem full_sort_swaps_that_do_not_meet (pred : list float) (rows n : nat)
    (b : FullSortBatch) (idx : list (Z * Z)) :
  let src1 := swap_sources (swap_row1 b) (swap_col_before1 b) in
  let tgt1 := swap_targets (swap_row1 b) (swap_col_after1 b) in
  let src2 := swap_sources (swap_row2 b) (swap_col_before2 b) in
  let tgt2 := swap_targets (swap_row2 b) (swap_col_after2 b) in
  n ≠ 0%nat →
  length pred = (rows * n)%nat →
  history_pairs (history_index b) = Ok idx →
  pairs_in_bounds rows n idx →
  length (swap_row1 b) = length (swap_col_after1 b) →
  length (swap_row1 b) = length (swap_col_before1 b) →
  length (swap_row2 b) = length (swap_col_after2 b) →
  length (swap_row2 b) = length (swap_col_before2 b) →
  pairs_in_bounds rows n (src1 ++ tgt1 ++ src2 ++ tgt2) →
  NoDup (positions rows n (tgt1 ++ tgt2)) →
  (∀ p, p ∈ positions rows n src2 → p ∉ positions rows n tgt1) →
  ∃ masked final,
    mask_scores pred n (history_index b) = Ok masked ∧
    _full_sort_batch_eval pred n b = Ok (interaction b, final) ∧
    (∀ k d s,
       positions rows n tgt1 !! k = Some d → positions rows n src1 !! k = Some s →
       cell final d.1 d.2 = cell masked s.1 s.2) ∧
    (∀ k d s,
       positions rows n tgt2 !! k = Some d → positions rows n src2 !! k = Some s →
       cell final d.1 d.2 = cell masked s.1 s.2) ∧
    (∀ r c, (r < rows)%nat → (c < n)%nat →
       (r, c) ∉ positions rows n (tgt1 ++ tgt2) →
       cell final r c = cell masked r c).
Proof.
  intros src1 tgt1 src2 tgt2 Hn Hlen Hidx Hb Ha1 Hb1 Ha2 Hb2 Hbounds Hnd Hmeet.
  unfold pairs_in_bounds in Hbounds.
  rewrite !Forall_app in Hbounds.
  destruct Hbounds as (Hs1 & Ht1 & Hs2 & Ht2).
  unfold positions in Hnd. rewrite fmap_app in Hnd.
  apply NoDup_app in Hnd as (Hnd1 & Hdisj & Hnd2).
  destruct (mask_scores_shape pred rows n _ idx Hn Hlen Hidx Hb)
    as (masked & Hmask & Hshape).
  destruct (swap_statement_run rows n masked (swap_row1 b) (swap_col_after1 b)
              (swap_col_before1 b)) as (m1 & Hrun1 & Hshape1 & Hat1 & Hother1);
    try done.
  destruct (swap_statement_run rows n m1 (swap_row2 b) (swap_col_after2 b)
              (swap_col_before2 b)) as (m2 & Hrun2 & Hshape2 & Hat2 & Hother2);
    try done.
  exists masked, m2. split; [done |]. split.
  { unfold _full_sort_batch_eval. rewrite Hmask. simpl.
    rewrite Hrun1. simpl. rewrite Hrun2. done. }
  split; [| split].
  - intros k d s Hd Hsrc.
    destruct (positions_lt rows n _ k d Ht1 Hd) as [Hr Hc].
    rewrite Hother2; [by eapply Hat1 | done | done |].
    destruct d as [dr dc]. simpl.
    apply (Hdisj (dr, dc)). by eapply list_elem_of_lookup_2.
  - intros k d s Hd Hsrc.
    rewrite (Hat2 k d s Hd Hsrc).
    destruct (positions_lt rows n _ k s Hs2 Hsrc) as [Hr Hc].
    destruct s as [sr sc]. simpl in *.
    apply Hother1; [done | done |].
    apply Hmeet. by eapply list_elem_of_lookup_2.
  - intros r c Hr Hc Hnot.
    unfold positions in Hnot. rewrite fmap_app in Hnot.
    rewrite Hother2, Hother1; try done.
    + intros Hin. apply Hnot. apply elem_of_app. by left.
    + intros Hin. apply Hnot. apply elem_of_app. by right.
Qed.

Lemma full_sort_swaps_that_do_not_meet_witness :
  ∃ masked final,
    mask_scores [10; 20; 30; 40]%float 4 (history_index separate_swaps) = Ok masked ∧
    _full_sort_batch_eval [10; 20; 30; 40]%float 4 separate_swaps
      = Ok (interaction separate_swaps, final) ∧
    (∀ k d s,
       positions 1 4 (swap_targets [0] [3]) !! k = Some d →
       positions 1 4 (swap_sources [0] [1]) !! k = Some s →
       cell final d.1 d.2 = cell masked s.1 s.2) ∧
    (∀ k d s,
       positions 1 4 (swap_targets [0] [2]) !! k = Some d →
       positions 1 4 (swap_sources [0] [1]) !! k = Some s →
       cell final d.1 d.2 = cell masked s.1 s.2) ∧
    (∀ r c, (r < 1)%nat → (c < 4)%nat →
       (r, c) ∉ positions 1 4 (swap_targets [0] [3] ++ swap_targets [0] [2]) →
       cell final r c = cell masked r c).
Proof.
  apply (full_sort_swaps_that_do_not_meet [10; 20; 30; 40]%float 1 4
           separate_swaps []); try reflexivity.
  - lia.
  - constructor.
  - repeat constructor.
  - apply (bool_decide_unpack _). vm_compute. exact I.
  - intros p Hp. apply (bool_decide_unpack _).
    apply list_elem_of_singleton in Hp. subst p. vm_compute. exact I.
Defined.

(** ** Prediction in blocks *)

Lemma mapM_ok {A B} (f : A → outcome B) (g : A → B) (l : list A) :
  (∀ x, x ∈ l → f x = Ok (g x)) → mapM f l = Ok (g <$> l).
Proof.
  induction l as [|x l IH]; intros Hf; [done |].
  cbn [mapM]. rewrite Hf by apply list_elem_of_here. simpl.
  rewrite IH by (intros y Hy; apply Hf; by apply list_elem_of_further). done.
Qed.

Lemma chunks_of_length {A} (k size : nat) (l : list A) :
  length (chunks_of k size l) = k.
Proof. revert l. induction k as [|k IH]; intros l; simpl; [done | by rewrite IH]. Qed.

Lemma chunks_of_lookup {A} (k size : nat) (l : list A) (i : nat) :
  (i < k)%nat → chunks_of k size l !! i = Some (take size (drop (i * size) l)).
Proof.
  revert l i. induction k as [|k IH]; intros l i Hi; [lia |].
  destruct i as [|i]; simpl; [done |].
  rewrite IH by lia. rewrite drop_drop. done.
Qed.

Lemma concat_chunks_of {A} (k size : nat) (l : list A) :
  (length l <= k * size)%nat → List.concat (chunks_of k size l) = l.
Proof.
  revert l. induction k as [|k IH]; intros l Hl; simpl.
  - destruct l; [done | simpl in Hl; lia].
  - rewrite IH by (rewrite length_drop; lia). apply take_drop.
Qed.

Lemma concat_fmap_fmap {A B} (f : A → B) (ls : list (list A)) :
  List.concat ((λ l : list A, f <$> l) <$> ls) = f <$> List.concat ls.
Proof.
  induction ls as [|l ls IH]; [done |].
  change (List.concat ((λ l : list A, f <$> l) <$> (l :: ls)))
    with ((f <$> l) ++ List.concat ((λ l : list A, f <$> l) <$> ls)).
  rewrite IH. change (List.concat (l :: ls)) with (l ++ List.concat ls).
  by rewrite fmap_app.
Qed.

(** The [i]-th block of a batch, for blocks of [size] rows. *)
Lemma rows_of_block (interaction : Interaction) (len size i : nat) :
  uniform interaction len →
  rows_of ((λ kc, (kc.1, take size (drop (i * size) kc.2))) <$> interaction)
          (size `min` (len - i * size))
  = take size (drop (i * size) (rows_of interaction len)).
Proof.
  intros Hu. apply list_eq. intros j. unfold rows_of.
  rewrite list_lookup_fmap.
  destruct (decide (j < size `min` (len - i * size))%nat) as [Hj|Hj].
  - rewrite lookup_seq_lt by done. simpl.
    rewrite lookup_take_lt by lia. rewrite lookup_drop, list_lookup_fmap.
    rewrite lookup_seq_lt by lia. simpl. f_equal.
    unfold row_of. rewrite <- list_fmap_compose. apply list_fmap_ext.
    intros k kc _. simpl. rewrite lookup_take_lt by lia. by rewrite lookup_drop.
  - rewrite lookup_seq_ge by lia. simpl. symmetry.
    destruct (decide (j < size)%nat) as [Hs|Hs].
    + rewrite lookup_take_lt by done. rewrite lookup_drop, list_lookup_fmap.
      rewrite lookup_seq_ge by lia. done.
    + apply lookup_take_ge. lia.
Qed.

Lemma blocks_are_chunks {A} (k size : nat) (l : list A) :
  (λ i, take size (drop (i * size) l)) <$> seq 0 k = chunks_of k size l.
Proof.
  apply list_eq. intros i. rewrite list_lookup_fmap.
  destruct (decide (i < k)%nat) as [Hi|Hi].
  - rewrite lookup_seq_lt, chunks_of_lookup by done. done.
  - rewrite lookup_seq_ge by lia. symmetry. apply lookup_ge_None.
    rewrite chunks_of_length. lia.
Qed.

Lemma range_from_zero (k : nat) : range 0 (Z.of_nat k) = Z.of_nat <$> seq 0 k.
Proof.
  unfold range. rewrite Z.sub_0_r, Nat2Z.id.
  apply list_fmap_ext. intros i x _. lia.
Qed.

Lemma spilt_predict_run (predict : Interaction → Prediction)
    (f : list (string * option Z) → float) (test_batch_size : Z)
    (interaction : Interaction) (len : nat) :
  rowwise predict f →
  0 < test_batch_size →
  interaction ≠ [] →
  uniform interaction len →
  (0 < len)%nat →
  _spilt_predict predict test_batch_size interaction (Z.of_nat len)
    = Ok (f <$> rows_of interaction len).
Proof.
  intros Hrow Hpos Hne Hu Hlen.
  set (size := Z.to_nat test_batch_size).
  set (k := ((len + size - 1) / size)%nat).
  assert (0 < size)%nat as Hsize by lia.
  assert (len <= k * size)%nat as Hcover.
  { subst k. pose proof (Nat.div_mod_eq (len + size - 1) size) as Hdm.
    pose proof (Nat.mod_upper_bound (len + size - 1) size ltac:(lia)). nia. }
  assert (∀ i, (i < k)%nat → (i * size < len)%nat) as Hblock.
  { intros i Hi. subst k.
    pose proof (Nat.div_mod_eq (len + size - 1) size) as Hdm.
    assert (S i <= (len + size - 1) / size)%nat as Hle by lia.
    assert (S i * size <= len + size - 1)%nat; [| lia].
    pose proof (Nat.Div0.mul_div_le (len + size - 1) size). nia. }
  assert (1 <= k)%nat as Hk.
  { subst k. apply Nat.div_le_lower_bound; lia. }
  unfold _spilt_predict.
  (* the columns, split *)
  rewrite (mapM_ok _ (λ kc, (kc.1, chunks_of k size kc.2))); last first.
  { intros [key col] Hin. unfold tensor_split.
    eapply Forall_forall in Hu; [| exact Hin]. simpl in Hu.
    replace (test_batch_size <? 0) with false by (symmetry; apply Z.ltb_ge; lia).
    rewrite bool_decide_eq_false_2 by (intros ->; simpl in Hu; lia).
    replace (test_batch_size =? 0) with false by (symmetry; apply Z.eqb_neq; lia).
    simpl. rewrite Hu. done. }
  cbn [mbind outcome_bind].
  (* the number of blocks *)
  assert (floor_div (Z.of_nat len + test_batch_size - 1) test_batch_size
          = Ok (Z.of_nat k)) as ->.
  { unfold floor_div.
    replace (test_batch_size =? 0) with false by (symmetry; apply Z.eqb_neq; lia).
    f_equal. subst k. rewrite Nat2Z.inj_div. f_equal; lia. }
  cbn [mbind outcome_bind]. rewrite range_from_zero.
  (* each block is predicted row by row *)
  rewrite (mapM_ok _ (λ i : Z,
             f <$> take size (drop (Z.to_nat i * size) (rows_of interaction len))));
    last first.
  { intros i Hi. apply list_elem_of_fmap in Hi as (j & -> & Hj).
    apply elem_of_seq in Hj. rewrite Nat2Z.id.
    rewrite (mapM_ok _ (λ kp : string * list (list Z),
               (kp.1, default [] (kp.2 !! j)))); last first.
    { intros [key pieces] Hin.
      apply list_elem_of_fmap in Hin as ([key' col] & Heq & _). simplify_eq/=.
      rewrite (getitem_nat _ j (take size (drop (j * size) col)))
        by (apply chunks_of_lookup; lia).
      simpl. rewrite chunks_of_lookup by lia. done. }
    cbn [mbind outcome_bind]. f_equal.
    rewrite <- list_fmap_compose.
    rewrite (list_fmap_ext _ (λ kc : string * list Z,
               (kc.1, take size (drop (j * size) kc.2))) interaction); last first.
    { intros ? [key col] _. simpl. rewrite chunks_of_lookup by lia. done. }
    rewrite <- (rows_of_block interaction len size j Hu).
    apply Hrow.
    - intros Hnil. apply fmap_nil_inv in Hnil. done.
    - unfold uniform in *. apply Forall_fmap.
      eapply Forall_impl; [exact Hu |]. intros [key col] Hcol. simpl in *.
      rewrite length_take, length_drop. lia. }
  cbn [mbind outcome_bind].
  rewrite bool_decide_eq_false_2; last first.
  { intros Hnil. apply fmap_nil_inv in Hnil. apply fmap_nil_inv in Hnil.
    destruct k; [lia | done]. }
  f_equal. rewrite <- list_fmap_compose.
  rewrite (list_fmap_ext _ ((λ l, f <$> l) ∘
             (λ j, take size (drop (j * size) (rows_of interaction len))))
             (seq 0 k)); last first.
  { intros ? j _. simpl. by rewrite Nat2Z.id. }
  rewrite list_fmap_compose, blocks_are_chunks, concat_fmap_fmap.
  rewrite concat_chunks_of; [done |].
  unfold rows_of. rewrite length_fmap, length_seq. done.
Qed.

(** X3.  [_spilt_predict] on a batch of [len >= 1] rows, with a positive
    block size and a model that scores each row by itself: the result is
    the model's score of every row of the batch, in the batch's order,
    whatever the block size. *)
Theorem spilt_predict_rowwise (predict : Interaction → Prediction)
    (f : list (string * option Z) → float) (test_batch_size : Z)
    (interaction : Interaction) (len : nat) :
  rowwise predict f →
  0 < test_batch_size →
  interaction ≠ [] →
  uniform interaction len →
  (0 < len)%nat →
  _spilt_predict predict test_batch_size interaction (Z.of_nat len)
    = Ok (f <$> rows_of interaction len).
Proof. apply spilt_predict_run. Qed.

Lemma demo_rowwise : rowwise demo_rowwise_predict demo_row_score.
Proof.
  intros interaction len Hne Hu. unfold demo_rowwise_predict. simpl.
  destruct interaction as [|[key col] rest]; [done |].
  apply Forall_cons in Hu as [Hcol _]. simpl in *. by rewrite Hcol.
Defined.

Lemma spilt_predict_rowwise_witness :
  _spilt_predict demo_rowwise_predict 2
    [("user_id", [7; 8; 9; 10; 11]); ("item_id", [1; 2; 3; 4; 5])] (Z.of_nat 5)
  = Ok (demo_row_score
          <$> rows_of [("user_id", [7; 8; 9; 10; 11]); ("item_id", [1; 2; 3; 4; 5])] 5).
Proof.
  apply (spilt_predict_rowwise demo_rowwise_predict demo_row_score 2
           [("user_id", [7; 8; 9; 10; 11]); ("item_id", [1; 2; 3; 4; 5])] 5).
  - exact demo_rowwise.
  - lia.
  - discriminate.
  - repeat constructor.
  - lia.
Defined.

Lemma inter_length_uniform (interaction : Interaction) (len : nat) :
  interaction ≠ [] → uniform interaction len →
  inter_length interaction = Z.of_nat len.
Proof.
  intros Hne Hu. unfold inter_length.
  induction interaction as [|[key col] rest IH]; [done |].
  apply Forall_cons in Hu as [Hcol Hrest]. simpl in *. rewrite Hcol.
  destruct rest as [|kc rest']; [simpl; lia |].
  rewrite IH by done. lia.
Qed.

(** X4.  The pointwise branch of [evaluate] for one batch, with a positive
    batch limit and a model that scores each row by itself: it returns the
    model's score of every row in order, whether the batch is within the
    limit (predicted at once) or above it (predicted in blocks). *)
Theorem pointwise_scores_rowwise (predict : Interaction → Prediction)
    (f : list (string * option Z) → float) (test_batch_size : Z)
    (interaction : Interaction) (len : nat) :
  rowwise predict f →
  0 < test_batch_size →
  interaction ≠ [] →
  uniform interaction len →
  ∃ scores,
    pointwise_scores predict test_batch_size interaction = Ok scores ∧
    to_vector scores = f <$> rows_of interaction len.
Proof.
  intros Hrow Hpos Hne Hu. unfold pointwise_scores.
  rewrite (inter_length_uniform interaction len Hne Hu).
  destruct (Z.of_nat len <=? test_batch_size) eqn:Hle.
  - eexists. split; [done |]. by apply Hrow.
  - apply Z.leb_gt in Hle.
    rewrite (spilt_predict_run predict f) by (try done; lia).
    eexists. split; [done |]. done.
Qed.

Lemma pointwise_scores_rowwise_witness :
  ∃ scores,
    pointwise_scores demo_rowwise_predict 2
      [("user_id", [7; 8; 9; 10; 11]); ("item_id", [1; 2; 3; 4; 5])] = Ok scores ∧
    to_vector scores
      = demo_row_score
          <$> rows_of [("user_id", [7; 8; 9; 10; 11]); ("item_id", [1; 2; 3; 4; 5])] 5.
Proof.
  apply (pointwise_scores_rowwise demo_rowwise_predict demo_row_score 2
           [("user_id", [7; 8; 9; 10; 11]); ("item_id", [1; 2; 3; 4; 5])] 5).
  - exact demo_rowwise.
  - lia.
  - discriminate.
  - repeat constructor.
Defined.

(** ** [fit] at the edges of its epoch range *)

Lemma range_empty (a b : Z) : b <= a → range a b = [].
Proof. intros Hle. unfold range. by replace (Z.to_nat (b - a)) with 0%nat by lia. Qed.

Lemma range_cons (a b : Z) : a < b → range a b = a :: range (a + 1) b.
Proof.
  intros Hlt. unfold range.
  replace (Z.to_nat (b - a)) with (S (Z.to_nat (b - (a + 1)))) by lia.
  cbn [seq fmap list_fmap]. f_equal; [lia |].
  rewrite <- seq_shift, <- list_fmap_compose.
  apply list_fmap_ext. intros i x _. simpl. lia.
Qed.

(** What a successful [resume_checkpoint] does. *)
Lemma resume_checkpoint_run (resume_file : string) (c : Checkpoint) (w : World) :
  fs w !! resume_file = Some c →
  (ck_state_dict c).*1 = (state_dict (model (self w))).*1 →
  resume_checkpoint resume_file w =
    (Ok (),
     mkWorld (resumed c (self w)) (fs w)
       (logs w
        ++ (if bool_decide (lower (cfg_model (ck_config c))
                            ≠ lower (cfg_model (config (self w))))
            then [LogWarning "Architecture configuration given in config file is different from that of checkpoint. This may yield an exception while state_dict is being loaded."]
            else [])
        ++ [LogInfo ("Checkpoint loaded. Resume training from epoch "
                     +:+ pretty (ck_epoch c + 1))])
       (events w)).
Proof.
  intros Hfile Hkeys.
  cbv [resume_checkpoint read_file mbind M_bind modify_self get_self when log
       load_state_dict mret M_ret raise].
  rewrite Hfile. simpl.
  case_bool_decide; simpl; (case_decide as Hk; [| by destruct Hk]); simpl.
  - rewrite <- app_assoc. done.
  - done.
Qed.

Section FitEdges.
Context `{Collaborators}.

Lemma fit_budget_spent_run (train_data : list Interaction)
    (valid_data : option (list Interaction)) (saved callback_fn : bool) (w : World) :
  epochs (self w) <= start_epoch (self w) →
  fit train_data valid_data saved callback_fn w =
    (Ok (best_valid_score (self w), best_valid_result (self w)),
     if saved
     then mkWorld (self w)
            (<[saved_model_file (self w) := checkpoint_of (self w) (-1)]> (fs w))
            (logs w) (events w ++ [Saved (-1)])
     else w).
Proof.
  intros Hspent. unfold fit. rewrite bind_run. cbv [get_self].
  rewrite (range_empty _ _ Hspent).
  replace (epochs (self w) <=? start_epoch (self w)) with true
    by (symmetry; by apply Z.leb_le).
  destruct saved; cbn [andb when].
  - rewrite bind_run, save_checkpoint_run. reflexivity.
  - reflexivity.
Qed.

(** X5.  [fit] on a trainer whose epoch budget is already spent
    ([epochs <= start_epoch], as after resuming from the last epoch's
    checkpoint) trains nothing and returns the best score and result it
    has; with saving enabled it overwrites the checkpoint with one whose
    epoch is -1, so that resuming from that file sets [start_epoch] to 0
    and the next [fit] trains the whole budget again. *)
Theorem fit_budget_spent (train_data : list Interaction)
    (valid_data : option (list Interaction)) (callback_fn : bool) (w : World) :
  epochs (self w) <= start_epoch (self w) →
  ∃ w' w'',
    fit train_data valid_data true callback_fn w =
      (Ok (best_valid_score (self w), best_valid_result (self w)), w') ∧
    self w' = self w ∧
    events w' = events w ++ [Saved (-1)] ∧
    fs w' !! saved_model_file (self w) = Some (checkpoint_of (self w) (-1)) ∧
    resume_checkpoint (saved_model_file (self w)) w' = (Ok (), w'') ∧
    start_epoch (self w'') = 0 ∧
    state_dict (model (self w'')) = state_dict (model (self w)).
Proof.
  intros Hspent.
  rewrite (fit_budget_spent_run train_data valid_data true callback_fn w Hspent).
  eexists _, _. split; [reflexivity |]. split; [reflexivity |].
  split; [reflexivity |]. split; [apply lookup_insert_eq |].
  split; [| split].
  - apply (resume_checkpoint_run _ (checkpoint_of (self w) (-1)));
      [apply lookup_insert_eq | reflexivity].
  - reflexivity.
  - reflexivity.
Qed.

Lemma fit_empty_train_data_run (valid_data : option (list Interaction))
    (saved callback_fn : bool) (w : World) :
  start_epoch (self w) < epochs (self w) →
  fit [] valid_data saved callback_fn w =
    (Raise (TypeError "must be real number, not NoneType"),
     mkWorld (set_train_loss_dict
                (<[start_epoch (self w) := None]> (train_loss_dict (self w)))
                (self w))
       (fs w) (logs w) (events w ++ [Trained (start_epoch (self w))])).
Proof.
  intros Hlt. unfold fit. rewrite bind_run. cbv [get_self].
  rewrite (range_cons _ _ Hlt).
  replace (epochs (self w) <=? start_epoch (self w)) with false
    by (symmetry; apply Z.leb_gt; lia).
  rewrite andb_false_r. reflexivity.
Qed.

(** X6.  [fit] on a training loader without batches, with at least one
    epoch left: the first epoch trains nothing, its loss [None] is
    recorded in [train_loss_dict], and formatting that loss for the log
    raises [TypeError]; the model is untouched, nothing is validated or
    saved. *)
Theorem fit_empty_train_data (valid_data : option (list Interaction))
    (saved callback_fn : bool) (w : World) :
  start_epoch (self w) < epochs (self w) →
  ∃ w',
    fit [] valid_data saved callback_fn w =
      (Raise (TypeError "must be real number, not NoneType"), w') ∧
    events w' = events w ++ [Trained (start_epoch (self w))] ∧
    train_loss_dict (self w') !! start_epoch (self w) = Some None ∧
    model (self w') = model (self w) ∧
    fs w' = fs w.
Proof.
  intros Hlt. rewrite (fit_empty_train_data_run valid_data saved callback_fn w Hlt).
  eexists. split; [reflexivity |]. split; [reflexivity |].
  split; [apply lookup_insert_eq |]. split; reflexivity.
Qed.

End FitEdges.

Lemma fit_budget_spent_witness :
  let C := demo_collaborators nan_on_bad [] in
  let w := demo_world 0 5 in
  ∃ w' w'',
    @fit C [[("user_id", [1])]] None true false w =
      (Ok (best_valid_score (self w), best_valid_result (self w)), w') ∧
    self w' = self w ∧
    events w' = events w ++ [Saved (-1)] ∧
    fs w' !! saved_model_file (self w) = Some (checkpoint_of (self w) (-1)) ∧
    resume_checkpoint (saved_model_file (self w)) w' = (Ok (), w'') ∧
    start_epoch (self w'') = 0 ∧
    state_dict (model (self w'')) = state_dict (model (self w)).
Proof.
  intros C w.
  apply (@fit_budget_spent C [[("user_id", [1])]] None false w).
  vm_compute. discriminate.
Defined.

Lemma fit_empty_train_data_witness :
  let C := demo_collaborators nan_on_bad [] in
  let w := demo_world 3 5 in
  ∃ w',
    @fit C [] None true false w =
      (Raise (TypeError "must be real number, not NoneType"), w') ∧
    events w' = events w ++ [Trained (start_epoch (self w))] ∧
    train_loss_dict (self w') !! start_epoch (self w) = Some None ∧
    model (self w') = model (self w) ∧
    fs w' = fs w.
Proof.
  intros C w.
  apply (@fit_empty_train_data C None true false w).
  reflexivity.
Defined.

(** ** [fit] with validation switched off by [eval_step] *)

Section FitEvalStepOff.
Context `{Collaborators}.




End FitEvalStepOff.


(** ** Resuming from an arbitrary checkpoint *)

Lemma signature_names (sd sd' : StateDict) :
  signature sd = signature sd' → sd.*1 = sd'.*1.
Proof.
  unfold signature. intros Heq.
  apply (f_equal (fmap fst)) in Heq.
  by rewrite <- !list_fmap_compose in Heq.
Qed.




(** X9.  Resuming from any checkpoint whose parameters have the names and
    sizes of the model's: training continues at the epoch after the
    checkpoint's, [cur_step] and [best_valid_score] are the
    checkpoint's, the model's parameters and the optimizer's state are
    replaced (the optimizer keeps its kind, the model its gradient
    buffers), and [best_valid_result] - which a checkpoint does not
    hold - stays what it was.  A warning is logged exactly when the
    model names of the two configurations differ after lower-casing;
    the files are untouched. *)
Theorem resume_checkpoint_compatible (resume_file : string) (c : Checkpoint)
    (w : World) :
  fs w !! resume_file = Some c →
  signature (ck_state_dict c) = signature (state_dict (model (self w))) →
  ∃ w',
    resume_checkpoint resume_file w = (Ok (), w') ∧
    start_epoch (self w') = ck_epoch c + 1 ∧
    cur_step (self w') = ck_cur_step c ∧
    best_valid_score (self w') = ck_best_valid_score c ∧
    best_valid_result (self w') = best_valid_result (self w) ∧
    model (self w') = mkModel (ck_state_dict c) (grad (model (self w))) ∧
    optimizer (self w') = mkOptimizer (kind (optimizer (self w))) (ck_optimizer c) ∧
    fs w' = fs w ∧
    logs w' =
      logs w
      ++ (if bool_decide (lower (cfg_model (ck_config c))
                          = lower (cfg_model (config (self w))))
          then []
          else [LogWarning "Architecture configuration given in config file is different from that of checkpoint. This may yield an exception while state_dict is being loaded."])
      ++ [LogInfo ("Checkpoint loaded. Resume training from epoch "
                   +:+ pretty (ck_epoch c + 1))].
Proof.
  intros Hfile Hsig.
  rewrite (resume_checkpoint_run resume_file c w Hfile (signature_names _ _ Hsig)).
  eexists. repeat split. simpl.
  repeat case_bool_decide; done.
Qed.

Lemma resume_checkpoint_compatible_witness :
  let c := mkCheckpoint (mkConfig "bpr" "adam" (1 # 1000) 10 1 5 None
                           "Recall@10" true 4096 "saved" 0 [2] 3)
             6 2 (3 # 4) [] (mkOptStateDict (1 # 100) (Some 0%Q) []) in
  let w := demo_world_with c in
  ∃ w',
    resume_checkpoint "saved/BPR-Nov-03-2026.pth" w = (Ok (), w') ∧
    start_epoch (self w') = 7 ∧
    cur_step (self w') = 2 ∧
    best_valid_score (self w') = (3 # 4)%Q ∧
    best_valid_result (self w') = None ∧
    model (self w') = mkModel [] [] ∧
    optimizer (self w') = mkOptimizer Adam (ck_optimizer c) ∧
    fs w' = fs w ∧
    logs w' = [LogInfo "Checkpoint loaded. Resume training from epoch 7"].
Proof.
  intros c w.
  apply (resume_checkpoint_compatible "saved/BPR-Nov-03-2026.pth" c w);
    reflexivity.
Defined.

(** ** The recommendation list over several batches *)

Lemma write_rec_list_batches_app (full_sort_predict : Interaction → list float)
    (tot_item_num : nat) (topk_cfg : list Z) (file_path : string)
    (user_mp item_mp : list string) (pre rest : list FullSortBatch)
    (files : gmap string (list string)) :
  write_rec_list_batches full_sort_predict tot_item_num topk_cfg file_path
    user_mp item_mp (pre ++ rest) files =
  write_rec_list_batches full_sort_predict tot_item_num topk_cfg file_path
    user_mp item_mp pre files ≫=
  write_rec_list_batches full_sort_predict tot_item_num topk_cfg file_path
    user_mp item_mp rest.
Proof.
  revert files. induction pre as [|b pre IH]; intros files; [done |].
  cbn [app write_rec_list_batches].
  destruct (_full_sort_batch_eval_pop _ _ _) as [[i scores]|e]; [| done]. simpl.
  destruct (py_max topk_cfg) as [k|e]; [| done]. simpl.
  destruct (topk scores k) as [topk_idx|e]; [| done]. simpl.
  destruct (rec_lines topk_idx user_mp item_mp) as [lines|e]; [| done]. simpl.
  apply IH.
Qed.

(** Whatever batches were written, the file map differs from the initial
    one at [file_path] only. *)
Lemma write_rec_list_batches_frame (full_sort_predict : Interaction → list float)
    (tot_item_num : nat) (topk_cfg : list Z) (file_path : string)
    (user_mp item_mp : list string) (eval_data : list FullSortBatch)
    (files files' : gmap string (list string)) (lines0 : list string) :
  write_rec_list_batches full_sort_predict tot_item_num topk_cfg file_path
    user_mp item_mp eval_data files = Ok files' →
  <[file_path := lines0]> files' = <[file_path := lines0]> files.
Proof.
  revert files. induction eval_data as [|b rest IH]; intros files.
  - cbn [write_rec_list_batches]. by intros [= ->].
  - cbn [write_rec_list_batches].
    destruct (_full_sort_batch_eval_pop _ _ _) as [[i scores]|e]; [| done]. simpl.
    destruct (py_max topk_cfg) as [k|e]; [| done]. simpl.
    destruct (topk scores k) as [topk_idx|e]; [| done]. simpl.
    destruct (rec_lines topk_idx user_mp item_mp) as [lines|e]; [| done]. simpl.
    intros Hrest. rewrite (IH _ Hrest). by rewrite !insert_insert_eq.
Qed.

Lemma write_rec_list_last_run (full_sort_predict : Interaction → list float)
    (tot_item_num : nat) (topk_cfg : list Z) (file_path : string)
    (user_mp item_mp : list string) (pre : list FullSortBatch) (b : FullSortBatch)
    (files files' : gmap string (list string)) :
  write_rec_list_batches full_sort_predict tot_item_num topk_cfg file_path
    user_mp item_mp (pre ++ [b]) files = Ok files' →
  write_rec_list_batches full_sort_predict tot_item_num topk_cfg file_path
    user_mp item_mp [b] files = Ok files'.
Proof.
  rewrite write_rec_list_batches_app.
  destruct (write_rec_list_batches _ _ _ _ _ _ pre files) as [files1|e] eqn:Hpre;
    [| done].
  simpl. cbn [write_rec_list_batches].
  destruct (_full_sort_batch_eval_pop _ _ _) as [[i scores]|e]; [| done]. simpl.
  destruct (py_max topk_cfg) as [k|e]; [| done]. simpl.
  destruct (topk scores k) as [topk_idx|e]; [| done]. simpl.
  destruct (rec_lines topk_idx user_mp item_mp) as [lines|e]; [| done]. simpl.
  intros [= <-]. f_equal.
  rewrite !insert_insert_eq. symmetry.
  apply (write_rec_list_batches_frame _ _ _ _ _ _ _ _ _ lines Hpre).
Qed.

(** X10.  [write_rec_list] keeps the last batch only, in general:
    whenever it succeeds on evaluation data that ends with the batch [b],
    the files it leaves are those it leaves when given [b] alone - the
    lines of all earlier batches are lost, since the file is reopened
    with mode ['w'] for every batch - and every file other than
    [file_path] is as before. *)
Theorem write_rec_list_last_batch_only (full_sort_predict : Interaction → list float)
    (tot_item_num : nat) (config : Config) (file_path : string)
    (pre : list FullSortBatch) (b : FullSortBatch) (user_mp item_mp : list string)
    (files files' : gmap string (list string)) :
  write_rec_list full_sort_predict tot_item_num config file_path (pre ++ [b])
    user_mp item_mp files = Ok files' →
  write_rec_list full_sort_predict tot_item_num config file_path [b]
    user_mp item_mp files = Ok files' ∧
  ∀ other, other ≠ file_path → files' !! other = files !! other.
Proof.
  unfold write_rec_list. intros Hrun. split.
  - by apply (write_rec_list_last_run _ _ _ _ _ _ pre).
  - intros other Hother.
    pose proof (write_rec_list_batches_frame _ _ _ _ _ _ _ _ _ [] Hrun) as Hframe.
    apply (f_equal (λ m : gmap string (list string), m !! other)) in Hframe.
    by rewrite !lookup_insert_ne in Hframe.
Qed.

Lemma write_rec_list_last_batch_only_witness :
  let files' : gmap string (list string) :=
    {[ "rec.txt" := ["u1" +:+ tab +:+ "b" +:+ tab +:+ "1";
                     "u1" +:+ tab +:+ "c" +:+ tab +:+ "2"] ]} in
  write_rec_list demo_predict 4 (demo_config 10 5) "rec.txt" [demo_batch 2]
    ["u1"; "u2"] ["a"; "b"; "c"] ∅ = Ok files' ∧
  ∀ other, other ≠ "rec.txt" → files' !! other = (∅ : gmap string (list string)) !! other.
Proof.
  intros files'.
  apply (write_rec_list_last_batch_only demo_predict 4 (demo_config 10 5) "rec.txt"
           [demo_batch 1; demo_batch 3] (demo_batch 2) ["u1"; "u2"] ["a"; "b"; "c"]
           ∅ files').
  vm_compute. reflexivity.
Defined.

(** ** The counters of [evaluate_pop] *)

Lemma foldM_invariant {A S} (f : S → A → outcome S) (I : S → Prop) (l : list A) :
  (∀ s a s', I s → f s a = Ok s' → I s') →
  ∀ s s', I s → foldM f s l = Ok s' → I s'.
Proof.
  intros Hstep. induction l as [|a l IH]; intros s s' Hs; simpl.
  - by intros [= <-].
  - destruct (f s a) as [s1|e] eqn:Hf; [| done]. simpl.
    apply IH. by eapply Hstep.
Qed.

Lemma init_stats_ok (p_class : Z) : stats_ok (Z.to_nat p_class) (init_stats p_class).
Proof.
  unfold stats_ok, init_stats. simpl. rewrite !length_replicate.
  repeat split. apply Forall2_replicate. lia.
Qed.

Lemma count_item_ok (item_popularity : list Z) (positive_items : list (list Z))
    (threshes : list Z) (scores : Matrix) (i : nat) (item : Z) (n : nat)
    (st st' : PopStats) :
  stats_ok n st →
  count_item item_popularity positive_items threshes scores i item st = Ok st' →
  stats_ok n st'.
Proof.
  intros (Hnum & Hscore & Hpos & Hle). unfold count_item.
  destruct (getitem item_popularity item) as [i_pop|e]; [| done]. simpl.
  destruct (find_bucket _ _ _ _) as [[b|]|e]; [| | done]; simpl.
  - destruct (getitem positive_items _) as [pos|e]; [| done]. simpl.
    case_bool_decide.
    + destruct (read scores _) as [s|e]; [| done]. simpl. intros [= <-].
      unfold stats_ok. simpl. rewrite !length_alter. repeat split; try done.
      apply Forall2_alter; [done |]. intros x y _ _ ?. lia.
    + intros [= <-]. unfold stats_ok. simpl. rewrite !length_alter.
      repeat split; try done.
      apply Forall2_alter_r; [done |]. intros x y _ _ ?. lia.
  - intros [= <-]. done.
Qed.

Lemma evaluate_pop_batches_ok (full_sort_predict : Interaction → list float)
    (tot_item_num : nat) (topk_cfg : list Z) (item_popularity : list Z)
    (positive_items : list (list Z)) (threshes : list Z)
    (eval_data : list FullSortBatch) (n : nat) (st st' : PopStats) :
  stats_ok n st →
  evaluate_pop_batches full_sort_predict tot_item_num topk_cfg item_popularity
    positive_items threshes eval_data st = Ok st' →
  stats_ok n st'.
Proof.
  revert st. induction eval_data as [|b rest IH]; intros st Hst.
  - cbn [evaluate_pop_batches]. by intros [= <-].
  - cbn [evaluate_pop_batches].
    destruct (_full_sort_batch_eval_pop _ _ _) as [[it scores]|e]; [| done]. simpl.
    destruct (py_max topk_cfg) as [k|e]; [| done]. simpl.
    destruct (topk scores k) as [topk_idx|e]; [| done]. simpl.
    destruct (foldM _ st _) as [st1|e] eqn:Hrows; [| done]. simpl.
    apply IH.
    revert Hrows. apply foldM_invariant; [| exact Hst].
    intros s [i row] s' Hs. apply foldM_invariant; [| exact Hs].
    intros s0 item s0'. apply count_item_ok.
Qed.

Lemma evaluate_pop_run (full_sort_predict : Interaction → list float)
    (tot_item_num : nat) (config : Config) (item_popularity : list Z)
    (positive_items : list (list Z)) (eval_data : list FullSortBatch)
    (nums pos : list Z) (means : list float) :
  evaluate_pop full_sort_predict tot_item_num config item_popularity positive_items
    eval_data = Ok (Some (nums, pos, means)) →
  length nums = Z.to_nat (cfg_p_class config) ∧
  length pos = Z.to_nat (cfg_p_class config) ∧
  length means = Z.to_nat (cfg_p_class config) ∧
  Forall2 (λ p num, 0 <= p <= num) pos nums ∧
  (∀ n, pos !! n = Some 0 → means !! n = Some 0%float).
Proof.
  unfold evaluate_pop. case_bool_decide; [done |].
  destruct (get_threshes _ _) as [threshes|e]; [| done]. simpl.
  destruct (evaluate_pop_batches _ _ _ _ _ _ _ _) as [st|e] eqn:Hrun; [| done].
  simpl. intros [= <- <- <-].
  destruct (evaluate_pop_batches_ok _ _ _ _ _ _ _ _ _ _ (init_stats_ok _) Hrun)
    as (Hnum & Hscore & Hpos & Hle).
  repeat split; try done.
  - rewrite length_fmap, length_zip. lia.
  - intros n Hn. rewrite list_lookup_fmap.
    destruct (lookup_lt_is_Some_2 (rec_pos_score st) n) as [s Hs].
    { apply lookup_lt_Some in Hn. lia. }
    rewrite (proj2 (lookup_zip_Some _ _ n s 0) (conj Hs Hn)). done.
Qed.

(** X11.  What [evaluate_pop] returns on evaluation data it gets through:
    three lists of [p_class] entries each (none for a negative
    [p_class]); in every popularity bucket the number of positive hits is
    between 0 and the number of recommendations counted; and a bucket
    without a positive hit has mean score 0, no division taking place. *)
Theorem evaluate_pop_counts (full_sort_predict : Interaction → list float)
    (tot_item_num : nat) (config : Config) (item_popularity : list Z)
    (positive_items : list (list Z)) (eval_data : list FullSortBatch)
    (nums pos : list Z) (means : list float) :
  evaluate_pop full_sort_predict tot_item_num config item_popularity positive_items
    eval_data = Ok (Some (nums, pos, means)) →
  length nums = Z.to_nat (cfg_p_class config) ∧
  length pos = Z.to_nat (cfg_p_class config) ∧
  length means = Z.to_nat (cfg_p_class config) ∧
  Forall2 (λ p num, 0 <= p <= num) pos nums ∧
  (∀ n, pos !! n = Some 0 → means !! n = Some 0%float).
Proof. apply evaluate_pop_run. Qed.

Lemma evaluate_pop_counts_witness :
  let nums := [0; 1; 0] in
  let pos := [0; 1; 0] in
  let means := [0; 2; 0]%float in
  length nums = Z.to_nat (cfg_p_class (demo_config 10 5)) ∧
  length pos = Z.to_nat (cfg_p_class (demo_config 10 5)) ∧
  length means = Z.to_nat (cfg_p_class (demo_config 10 5)) ∧
  Forall2 (λ p num, 0 <= p <= num) pos nums ∧
  (∀ n, pos !! n = Some 0 → means !! n = Some 0%float).
Proof.
  intros nums pos means.
  apply (evaluate_pop_counts demo_predict 4 (demo_config 10 5) [0; 0; 5; 1]
           [[]; [3]] [demo_batch 1] nums pos means).
  vm_compute. reflexivity.
Defined.

(** ** The thresholds between popularity buckets *)

Lemma mapM_Forall2 {A B} (f : A → outcome B) (l : list A) (ys : list B) :
  mapM f l = Ok ys → Forall2 (λ x y, f x = Ok y) l ys.
Proof.
  revert ys. induction l as [|x l IH]; intros ys; simpl.
  - intros [= <-]. constructor.
  - destruct (f x) as [y|e] eqn:Hf; [| done]. simpl.
    destruct (mapM f l) as [ys'|e]; [| done]. simpl.
    intros [= <-]. constructor; [done | by apply IH].
Qed.

Lemma getitem_elem_of {A} (l : list A) (i : Z) (x : A) :
  getitem l i = Ok x → x ∈ l.
Proof.
  unfold getitem. destruct (norm_index _ _) as [k|e]; [| done]. simpl.
  destruct (l !! k) as [y|] eqn:Hk; [| done].
  intros [= <-]. by eapply list_elem_of_lookup_2.
Qed.

Lemma get_threshes_run (item_popularity : list Z) (n_class : Z) (threshes : list Z) :
  get_threshes item_popularity n_class = Ok threshes →
  length threshes = Z.to_nat (n_class - 1) ∧
  Forall (λ t, t ∈ item_popularity) threshes.
Proof.
  unfold get_threshes.
  destruct (true_div _ _) as [t|e]; [| done]. simpl.
  intros Hmap. apply mapM_Forall2 in Hmap. split.
  - rewrite <- (Forall2_length _ _ _ Hmap). unfold range.
    by rewrite length_fmap, length_seq.
  - apply Forall_forall. intros x Hx.
    destruct (proj1 (list_elem_of_lookup _ _) Hx) as [k Hk].
    destruct (Forall2_lookup_r _ _ _ _ _ Hmap Hk) as (i & _ & Hi).
    destruct (int_of_float _) as [idx|e]; [| done]. simpl in Hi.
    apply getitem_elem_of in Hi.
    by rewrite merge_sort_Permutation in Hi.
Qed.

(** X12.  [get_threshes], when it returns: it gives [n_class - 1]
    thresholds (none for [n_class <= 1]), and every threshold is the
    popularity of some item of the table - never a value in between. *)
Theorem get_threshes_are_popularities (item_popularity : list Z) (n_class : Z)
    (threshes : list Z) :
  get_threshes item_popularity n_class = Ok threshes →
  length threshes = Z.to_nat (n_class - 1) ∧
  Forall (λ t, t ∈ item_popularity) threshes.
Proof. apply get_threshes_run. Qed.

Lemma get_threshes_are_popularities_witness :
  get_threshes [5; 1; 9; 3; 7; 2; 8; 4; 6] 3 = Ok [4; 7] ∧
  length [4; 7] = Z.to_nat (3 - 1) ∧
  Forall (λ t, t ∈ [5; 1; 9; 3; 7; 2; 8; 4; 6]) [4; 7].
Proof.
  assert (get_threshes [5; 1; 9; 3; 7; 2; 8; 4; 6] 3 = Ok [4; 7]) as Hrun
    by (vm_compute; reflexivity).
  split; [exact Hrun |].
  exact (get_threshes_are_popularities [5; 1; 9; 3; 7; 2; 8; 4; 6] 3 [4; 7] Hrun).
Defined.

Lemma evaluate_pop_no_class (full_sort_predict : Interaction → list float)
    (tot_item_num : nat) (config : Config) (item_popularity : list Z)
    (positive_items : list (list Z)) (eval_data : list FullSortBatch) :
  eval_data ≠ [] →
  cfg_p_class config = 0 →
  evaluate_pop full_sort_predict tot_item_num config item_popularity positive_items
    eval_data = Raise (ZeroDivisionError "division by zero").
Proof.
  intros Hdata Hzero. unfold evaluate_pop, get_threshes, true_div.
  rewrite Hzero. case_bool_decide; done.
Qed.

(** X13.  With [p_class = 0] in the configuration, [evaluate_pop] on any
    evaluation data raises [ZeroDivisionError]: [get_threshes] divides
    the table's length by the number of classes before its loop runs.
    (Without evaluation data it returns [None] first.) *)
Theorem evaluate_pop_zero_classes (full_sort_predict : Interaction → list float)
    (tot_item_num : nat) (config : Config) (item_popularity : list Z)
    (positive_items : list (list Z)) (eval_data : list FullSortBatch) :
  eval_data ≠ [] →
  cfg_p_class config = 0 →
  evaluate_pop full_sort_predict tot_item_num config item_popularity positive_items
    eval_data = Raise (ZeroDivisionError "division by zero") ∧
  evaluate_pop full_sort_predict tot_item_num config item_popularity positive_items
    [] = Ok None.
Proof.
  intros Hdata Hzero. split; [by apply evaluate_pop_no_class | done].
Qed.

Lemma evaluate_pop_zero_classes_witness :
  let config := mkConfig "BPR" "adam" (1 # 1000) 10 1 5 None
                  "Recall@10" true 4096 "saved" 0 [2] 0 in
  evaluate_pop demo_predict 4 config [0; 0; 5; 1] [[]; [3]] [demo_batch 1]
    = Raise (ZeroDivisionError "division by zero") ∧
  evaluate_pop demo_predict 4 config [0; 0; 5; 1] [[]; [3]] [] = Ok None.
Proof.
  intros config.
  apply (evaluate_pop_zero_classes demo_predict 4 config [0; 0; 5; 1] [[]; [3]]
           [demo_batch 1]); [discriminate | reflexivity].
Defined.

(** ** [evaluate] and the best model *)

Section EvaluateBest.
Context `{Evaluation}.





End EvaluateBest.


(** ** The optimizer and the configured weight decay *)

Lemma lower_ascii_idemp (c : ascii) : lower_ascii (lower_ascii c) = lower_ascii c.
Proof. by destruct c as [[] [] [] [] [] [] [] []]. Qed.

Lemma lower_idemp (s : string) : lower (lower s) = lower s.
Proof.
  induction s as [|c s IH]; [done |].
  cbn [lower]. by rewrite lower_ascii_idemp, IH.
Qed.

Lemma build_optimizer_run (learner : string) (learning_rate weight_decay : Q) :
  _build_optimizer (lower learner) learning_rate weight_decay =
    _build_optimizer learner learning_rate weight_decay ∧
  lr (opt_state_dict (_build_optimizer learner learning_rate weight_decay).1) =
    learning_rate ∧
  ((_build_optimizer learner learning_rate weight_decay).2 = [] →
   (0 < weight_decay)%Q →
   weight_decay_of
     (opt_state_dict (_build_optimizer learner learning_rate weight_decay).1) =
     Some weight_decay).
Proof.
  split; [| split].
  - unfold _build_optimizer. by rewrite lower_idemp.
  - unfold _build_optimizer. repeat case_decide; reflexivity.
  - unfold _build_optimizer. repeat case_decide; simpl; try done.
    intros Hquiet Hpos. apply Qlt_bool_iff in Hpos. by rewrite Hpos in Hquiet.
Qed.

(** X16.  [_build_optimizer] for every learner name: the name is taken
    without regard to case; the optimizer always has the configured
    learning rate; and a positive weight decay is never dropped
    silently - if no warning is logged, the optimizer built has the
    configured weight decay. *)
Theorem build_optimizer_weight_decay (learner : string)
    (learning_rate weight_decay : Q) :
  _build_optimizer (lower learner) learning_rate weight_decay =
    _build_optimizer learner learning_rate weight_decay ∧
  lr (opt_state_dict (_build_optimizer learner learning_rate weight_decay).1) =
    learning_rate ∧
  ((_build_optimizer learner learning_rate weight_decay).2 = [] →
   (0 < weight_decay)%Q →
   weight_decay_of
     (opt_state_dict (_build_optimizer learner learning_rate weight_decay).1) =
     Some weight_decay).
Proof. apply build_optimizer_run. Qed.

(** ** The order of the steps of [fit], in every run *)

Section FitSteps.
Context `{Collaborators}.

Lemma fit_train_events (train_data : list Interaction) (epoch_idx : Z) (w : World) :
  let '(r, w') := fit_train train_data epoch_idx w in
  eval_step (self w') = eval_step (self w) ∧
  match r with
  | Ok _ => events w' = events w ++ [Trained epoch_idx]
  | Raise _ => events w' = events w ∨ events w' = events w ++ [Trained epoch_idx]
  end.
Proof.
  unfold fit_train, _train_epoch. rewrite bind_run.
  pose proof (train_batches_frame (default calculate_loss None) train_data None w) as Hb.
  destruct (train_batches _ None train_data w) as [[total|e] w1];
    destruct Hb as (_ & _ & Hev & Hp & _);
    assert (eval_step (self w1) = eval_step (self w)) as Hstep
      by (injection Hp as _ _ ? _ _ _ _ _ _ _ _; done).
  - cbv [mbind M_bind modify_self emit lift]. simpl.
    rewrite Hev. destruct total; simpl; split; auto.
  - split; auto.
Qed.

Lemma fit_eval_events (valid_data : option (list Interaction)) (saved callback_fn : bool)
    (epoch_idx : Z) (w : World) :
  ∃ ctl w' evs,
    fit_eval valid_data saved callback_fn epoch_idx w = (Ok ctl, w') ∧
    eval_step (self w') = eval_step (self w) ∧
    events w' = events w ++ evs ∧
    trained_epochs evs = [] ∧
    (validations evs = [] ∨
     ∃ v, validations evs = [(epoch_idx, v)] ∧ 0 < eval_step (self w) ∧
          (epoch_idx + 1) `mod` eval_step (self w) = 0) ∧
    callbacks evs = (if callback_fn then validations evs else []) ∧
    (ctl = Break → Stopped epoch_idx ∈ evs).
Proof.
  unfold fit_eval. rewrite bind_run. cbv [get_self].
  destruct ((eval_step (self w) <=? 0) || py_not valid_data) eqn:Eskip.
  - exists Continue. destruct saved; cbv [when].
    + rewrite bind_run, save_checkpoint_run.
      eexists _, [Saved epoch_idx]. split; [reflexivity |]. simpl.
      repeat split; try done; [by left | by destruct callback_fn].
    + exists w, []. split; [reflexivity |]. rewrite app_nil_r.
      repeat split; try done; [by left | by destruct callback_fn].
  - apply orb_false_iff in Eskip as [Hpos _]. apply Z.leb_gt in Hpos.
    destruct ((epoch_idx + 1) `mod` eval_step (self w) =? 0) eqn:Emod.
    + apply Z.eqb_eq in Emod.
      cbv [fit_validate _valid_epoch mbind M_bind get_self mret M_ret emit modify_self].
      set (v := calculate_valid_score _ _).
      destruct (early_stopping v _ _ _ _) as [[[best step] stop_flag] update_flag].
      destruct update_flag, saved, callback_fn, stop_flag;
        cbv [when _save_checkpoint write_file emit mbind M_bind get_self mret M_ret];
        simpl; eexists _, _, _; (split; [reflexivity |]); simpl;
        rewrite <- ?app_assoc; (split; [done |]); (split; [reflexivity |]);
        simpl; (split; [done |]); (split; [right; by exists v |]);
        (split; [done |]); try done; intros _; set_solver.
    + exists Continue, w, []. split; [reflexivity |]. rewrite app_nil_r.
      repeat split; try done; [by left | by destruct callback_fn].
Qed.

Lemma steps_ok_app (eval_step : Z) (callback_fn : bool) (evs1 evs2 : list Event) :
  steps_ok eval_step callback_fn evs1 → steps_ok eval_step callback_fn evs2 →
  steps_ok eval_step callback_fn (evs1 ++ evs2).
Proof.
  unfold steps_ok, validations, callbacks, trained_epochs.
  intros [Hv1 Hc1] [Hv2 Hc2]. rewrite !omap_app. split.
  - apply Forall_app. split.
    + eapply Forall_impl; [exact Hv1 |]. intros ev (? & ? & ?).
      repeat split; try done. set_solver.
    + eapply Forall_impl; [exact Hv2 |]. intros ev (? & ? & ?).
      repeat split; try done. set_solver.
  - rewrite Hc1, Hc2. by destruct callback_fn.
Qed.

Lemma fit_epoch_steps (train_data : list Interaction)
    (valid_data : option (list Interaction)) (saved callback_fn : bool)
    (epoch_idx : Z) (w : World) :
  let '(r, w') := fit_epoch train_data valid_data saved callback_fn epoch_idx w in
  eval_step (self w') = eval_step (self w) ∧
  ∃ evs,
    events w' = events w ++ evs ∧
    steps_ok (eval_step (self w)) callback_fn evs ∧
    match r with
    | Ok ctl => trained_epochs evs = [epoch_idx] ∧ (ctl = Break → Stopped epoch_idx ∈ evs)
    | Raise _ => trained_epochs evs = [] ∨ trained_epochs evs = [epoch_idx]
    end.
Proof.
  unfold fit_epoch. rewrite bind_run.
  pose proof (fit_train_events train_data epoch_idx w) as Htrain.
  destruct (fit_train train_data epoch_idx w) as [[[]|x] w1];
    destruct Htrain as [Hstep Hev].
  - destruct (fit_eval_events valid_data saved callback_fn epoch_idx w1)
      as (ctl & w' & evs & -> & Hstep' & Hev' & Htr & Hval & Hcb & Hstop).
    split; [congruence |].
    exists ([Trained epoch_idx] ++ evs). split; [| split; [| split]].
    + rewrite Hev', Hev, <- app_assoc. done.
    + unfold steps_ok, validations, callbacks, trained_epochs in *.
      rewrite !omap_app. simpl. split; [| exact Hcb].
      destruct Hval as [-> | (v & -> & Hpos & Hmod)]; [constructor |].
      rewrite Hstep in Hpos, Hmod.
      repeat constructor; done.
    + unfold trained_epochs in *. rewrite omap_app, Htr. done.
    + intros Hb. specialize (Hstop Hb). simpl. by constructor.
  - split; [done |].
    destruct Hev as [Hev | Hev].
    + exists []. rewrite app_nil_r. split; [done |]. split; [| by left].
      split; [constructor | by destruct callback_fn].
    + exists [Trained epoch_idx]. split; [done |]. split; [| by right].
      split; [constructor | by destruct callback_fn].
Qed.

Lemma fit_loop_steps (train_data : list Interaction)
    (valid_data : option (list Interaction)) (saved callback_fn : bool)
    (epoch_idxs : list Z) (w : World) :
  let '(r, w') := fit_loop train_data valid_data saved callback_fn epoch_idxs w in
  ∃ evs,
    events w' = events w ++ evs ∧
    steps_ok (eval_step (self w)) callback_fn evs ∧
    trained_epochs evs `prefix_of` epoch_idxs ∧
    (∀ u, r = Ok u → trained_epochs evs = epoch_idxs ∨ ∃ e, Stopped e ∈ evs).
Proof.
  revert w. induction epoch_idxs as [|e rest IH]; intros w.
  - simpl. exists []. rewrite app_nil_r. split; [done |].
    split; [split; [constructor | by destruct callback_fn] |].
    split; [done | by left].
  - rewrite fit_loop_step.
    pose proof (fit_epoch_steps train_data valid_data saved callback_fn e w) as Hepoch.
    destruct (fit_epoch _ _ _ _ e w) as [[[]|x] w1];
      destruct Hepoch as (Hstep & evs & Hev & Hok & Hshape).
    + specialize (IH w1).
      destruct (fit_loop _ _ _ _ rest w1) as [r w'].
      destruct IH as (evs' & Hev' & Hok' & Hpre & Hall).
      destruct Hshape as [Htr _].
      exists (evs ++ evs'). split; [| split; [| split]].
      * rewrite Hev', Hev, <- app_assoc. done.
      * apply steps_ok_app; [done |]. by rewrite <- Hstep.
      * unfold trained_epochs in *. rewrite omap_app, Htr.
        by apply prefix_cons.
      * intros u Hu. destruct (Hall u Hu) as [Hfull | [e' He']].
        -- left. unfold trained_epochs in *. rewrite omap_app, Htr, Hfull. done.
        -- right. exists e'. set_solver.
    + destruct Hshape as [Htr Hstop].
      exists evs. split; [done |]. split; [done |]. split.
      * rewrite Htr. apply prefix_cons, prefix_nil.
      * intros _ _. right. exists e. by apply Hstop.
    + exists evs. split; [done |]. split; [done |]. split; [| done].
      destruct Hshape as [-> | ->]; [apply prefix_nil | apply prefix_cons, prefix_nil].
Qed.

Lemma fit_steps_run (train_data : list Interaction)
    (valid_data : option (list Interaction)) (saved callback_fn : bool) (w : World) :
  ∃ evs,
    events (fit train_data valid_data saved callback_fn w).2 = events w ++ evs ∧
    steps_ok (eval_step (self w)) callback_fn evs ∧
    trained_epochs evs `prefix_of` range (start_epoch (self w)) (epochs (self w)) ∧
    (∀ res, (fit train_data valid_data saved callback_fn w).1 = Ok res →
            trained_epochs evs = range (start_epoch (self w)) (epochs (self w))
            ∨ ∃ e, Stopped e ∈ evs).
Proof.
  unfold fit. rewrite bind_run. cbv [get_self]. rewrite bind_run.
  set (es := range _ _).
  assert (∃ w0 evs0,
            when (saved && (epochs (self w) <=? start_epoch (self w)))
              (_save_checkpoint (-1)) w = (Ok (), w0) ∧
            eval_step (self w0) = eval_step (self w) ∧
            events w0 = events w ++ evs0 ∧
            steps_ok (eval_step (self w)) callback_fn evs0 ∧
            trained_epochs evs0 = [])
    as (w0 & evs0 & -> & Hstep & Hev0 & Hok0 & Htr0).
  { destruct (saved && _); cbv [when].
    - rewrite save_checkpoint_run. eexists _, [Saved (-1)].
      split; [reflexivity |]. split; [done |]. split; [done |].
      split; [| done]. split; [constructor | by destruct callback_fn].
    - exists w, []. rewrite app_nil_r.
      split; [reflexivity |]. split; [done |]. split; [done |].
      split; [| done]. split; [constructor | by destruct callback_fn]. }
  rewrite bind_run.
  pose proof (fit_loop_steps train_data valid_data saved callback_fn es w0) as Hloop.
  destruct (fit_loop _ _ _ _ es w0) as [[[]|x] w'];
    destruct Hloop as (evs & Hev & Hok & Hpre & Hall);
    exists (evs0 ++ evs); simpl;
    (split; [rewrite Hev, Hev0, <- app_assoc; done |]);
    (split; [apply steps_ok_app; [done | by rewrite <- Hstep] |]);
    unfold trained_epochs in *; rewrite omap_app, Htr0; simpl;
    (split; [done |]).
  - intros res _. destruct (Hall () eq_refl) as [? | [e He]]; [by left |].
    right. exists e. set_solver.
  - done.
Qed.

(** X17.  The steps of [fit], in every run - whether it returns, stops
    early or raises, and whatever the early-stopping rule answers:
    the epochs trained are an initial stretch of
    [range(start_epoch, epochs)], in order and without gaps; every
    validation is that of an epoch [e] trained in the run, with
    [(e + 1) % eval_step = 0]; the callback is invoked exactly once per
    validation, with that validation's epoch and score, and never if none
    is given; and when [fit] returns, either every epoch of the range
    was trained or the loop was left by an early stop. *)
Theorem fit_steps_in_order (train_data : list Interaction)
    (valid_data : option (list Interaction)) (saved callback_fn : bool) (w : World) :
  ∃ evs,
    events (fit train_data valid_data saved callback_fn w).2 = events w ++ evs ∧
    steps_ok (eval_step (self w)) callback_fn evs ∧
    trained_epochs evs `prefix_of` range (start_epoch (self w)) (epochs (self w)) ∧
    (∀ res, (fit train_data valid_data saved callback_fn w).1 = Ok res →
            trained_epochs evs = range (start_epoch (self w)) (epochs (self w))
            ∨ ∃ e, Stopped e ∈ evs).
Proof. apply fit_steps_run. Qed.



End FitSteps.

(** ** When an epoch of training returns *)

Section TrainsNormally.
Context `{Collaborators}.




End TrainsNormally.


(** ** A fresh trainer whose [eval_step] exceeds its budget *)

Lemma elem_of_range (a b e : Z) : e ∈ range a b → a <= e < b.
Proof.
  unfold range. intros Hin.
  apply list_elem_of_fmap in Hin as (i & -> & Hi).
  apply elem_of_seq in Hi. lia.
Qed.

Section FreshTrainer.
Context `{Collaborators}.

Lemma fresh_trainer_validations (config : Config) (model : Model)
    (item_popularity : list Z) (now : string) (t : Trainer)
    (warnings : list LogRecord) (train_data : list Interaction)
    (valid_data : option (list Interaction)) (saved callback_fn : bool)
    (files : gmap string Checkpoint) :
  Trainer__init__ config model (Some item_popularity) now = Ok (t, warnings) →
  cfg_epochs config <= cfg_eval_step config →
  ∀ e v,
    (e, v) ∈ validations
               (events (fit train_data valid_data saved callback_fn
                          (mkWorld t files [] [])).2) →
    e = cfg_epochs config - 1.
Proof.
  unfold Trainer__init__.
  destruct (_build_optimizer _ _ _) as [opt ws]. intros [= <- _] Hclamp e v.
  destruct (fit_steps_run train_data valid_data saved callback_fn
              (mkWorld (mkTrainer config (cfg_model config) (cfg_learner config)
                          (cfg_learning_rate config) (cfg_epochs config)
                          (Z.min (cfg_eval_step config) (cfg_epochs config))
                          (cfg_stopping_step config) (cfg_clip_grad_norm config)
                          (lower (cfg_valid_metric config))
                          (cfg_valid_metric_bigger config)
                          (cfg_eval_batch_size config)
                          (cfg_checkpoint_dir config +:+ "/" +:+ cfg_model config
                           +:+ "-" +:+ now +:+ ".pth")
                          (cfg_weight_decay config) 0 0 (-1)%Q None ∅ opt model
                          item_popularity) files [] []))
    as (evs & -> & [Hval _] & Hpre & _).
  simpl in *. intros Hin.
  rewrite Forall_forall in Hval.
  destruct (Hval _ Hin) as (Hpos & Hmod & Htrained). simpl in *.
  assert (e ∈ range 0 (cfg_epochs config)) as Hrange.
  { destruct Hpre as [k ->]. apply elem_of_app. by left. }
  apply elem_of_range in Hrange.
  rewrite Z.min_r in Hmod by lia.
  destruct (decide (e + 1 = cfg_epochs config)) as [|Hne]; [lia |].
  rewrite Z.mod_small in Hmod by lia. lia.
Qed.

(** X19.  [Trainer.__init__] stores [min(eval_step, epochs)] as
    [eval_step].  So a freshly constructed trainer whose configured
    [eval_step] is not below its [epochs] validates, in [fit], after
    the last epoch of its budget and at no other: whatever the data,
    every validation that happens is that of epoch [epochs - 1]. *)
Theorem fresh_trainer_validates_last_epoch (config : Config) (model : Model)
    (item_popularity : list Z) (now : string) (t : Trainer)
    (warnings : list LogRecord) (train_data : list Interaction)
    (valid_data : option (list Interaction)) (saved callback_fn : bool)
    (files : gmap string Checkpoint) :
  Trainer__init__ config model (Some item_popularity) now = Ok (t, warnings) →
  cfg_epochs config <= cfg_eval_step config →
  ∀ e v,
    (e, v) ∈ validations
               (events (fit train_data valid_data saved callback_fn
                          (mkWorld t files [] [])).2) →
    e = cfg_epochs config - 1.
Proof. apply fresh_trainer_validations. Qed.

End FreshTrainer.

Lemma fresh_trainer_validates_last_epoch_witness :
  let C := demo_collaborators nan_on_bad [0; 1 # 2; 2 # 5; 3 # 10]%Q in
  let config := mkConfig "BPR" "adam" (1 # 1000) 3 10 5 None
                  "Recall@10" true 4096 "saved" 0 [2] 3 in
  let t := demo_trainer_eval_step 10 3 5 in
  validations
    (events (@fit C [[("user_id", [1])]] (Some [[("user_id", [7])]]) true false
               (mkWorld t ∅ [] [])).2) = [(2, (3 # 10)%Q)] ∧
  ∀ e v,
    (e, v) ∈ validations
               (events (@fit C [[("user_id", [1])]] (Some [[("user_id", [7])]])
                          true false (mkWorld t ∅ [] [])).2) →
    e = cfg_epochs config - 1.
Proof.
  intros C config t. split; [reflexivity |].
  apply (@fresh_trainer_validates_last_epoch C config (mkModel [] [])
           [5; 1; 9; 3; 7; 2; 8; 4; 6] "Nov-03-2026" t []).
  - reflexivity.
  - vm_compute. discriminate.
Defined.

(** ** The constructors of the knowledge-graph and S3Rec trainers *)

(** X20.  Constructing a [KGTrainer], a [KGATTrainer], an
    [S3RecTrainer] or an [MKRTrainer] raises [TypeError], whatever the
    configuration and the model: each [__init__] calls
    [Trainer.__init__] without the [item_popularity] argument, like
    [TraditionalTrainer]'s, so none of these trainers can be built and
    their [_train_epoch], [pretrain] and [fit] are never reached. *)
Theorem subclass_trainers_init_raise (config : Config) (model : Model)
    (now : string) (cfg_train_rec_step cfg_train_kg_step : option Z)
    (cfg_kge_interval : Z) :
  let e := TypeError "__init__() missing 1 required positional argument: 'item_popularity'" in
  KGTrainer__init__ config cfg_train_rec_step cfg_train_kg_step model now = Raise e ∧
  KGATTrainer__init__ config model now = Raise e ∧
  S3RecTrainer__init__ config model now = Raise e ∧
  MKRTrainer__init__ config cfg_kge_interval model now = Raise e.
Proof. repeat split. Qed.

(** ** [fit_dis] and its first validation *)

Lemma next_multiple (a s : Z) :
  0 < s →
  let k := (- (a + 1)) `mod` s in
  0 <= k < s ∧ (a + k + 1) `mod` s = 0 ∧
  ∀ x, a <= x < a + k → (x + 1) `mod` s ≠ 0.
Proof.
  intros Hs k.
  pose proof (Z.mod_pos_bound (- (a + 1)) s Hs) as Hk. fold k in Hk.
  pose proof (Z.div_mod (- (a + 1)) s ltac:(lia)) as Hdiv. fold k in Hdiv.
  split; [done |]. split.
  - replace (a + k + 1) with ((- ((- (a + 1)) `div` s)) * s) by lia.
    apply Z_mod_mult.
  - intros x Hx Hmod.
    apply Z.mod_divide in Hmod; [| lia]. destruct Hmod as [q Hq].
    set (d := (- (a + 1)) `div` s) in *.
    assert (s * (- d - q) = a + k + 1 - (x + 1)) as Hdiff by lia.
    assert (0 < s * (- d - q) < s) as Hbound by lia.
    assert (- d - q <= 0 ∨ 1 <= - d - q) as [Hm | Hm] by lia.
    + assert (s * (- d - q) <= s * 0) by (apply Z.mul_le_mono_nonneg_l; lia). lia.
    + assert (s * 1 <= s * (- d - q)) by (apply Z.mul_le_mono_nonneg_l; lia). lia.
Qed.

Section FitDisRuns.
Context `{Collaborators}.

Lemma fit_dis_loop_run (train_data : list Interaction)
    (valid_data : option (list Interaction)) (saved : bool) (k : nat) :
  trains_normally train_data →
  py_not valid_data = false →
  ∀ (a b : Z) (w : World),
    0 < eval_step (self w) →
    (∀ x, a <= x < a + Z.of_nat k → (x + 1) `mod` eval_step (self w) ≠ 0) →
    (a + Z.of_nat k + 1) `mod` eval_step (self w) = 0 →
    a + Z.of_nat k < b →
    ∃ w',
      fit_dis_loop train_data valid_data saved (range a b) w
        = (NameError "writer", w') ∧
      events w' = events w ++ (Trained <$> range a (a + Z.of_nat k + 1)) ∧
      fs w' = fs w ∧
      progress (self w') = progress (self w).
Proof.
  intros Hnormal Hdata.
  induction k as [|k IH]; intros a b w Hpos Hbefore Hat Hlt.
  - rewrite (range_cons a b) by lia. cbn [fit_dis_loop]. unfold fit_dis_epoch.
    pose proof (fit_train_frame train_data a w) as Hframe.
    destruct (Hnormal a w) as (total & w0 & Htrain).
    assert (∃ w1, fit_train train_data a w = (Ok (), w1)) as [w1 Hrun].
    { unfold fit_train. rewrite bind_run, Htrain. eexists. reflexivity. }
    rewrite Hrun in *. destruct Hframe as (Hfs & _ & Hp & Hev).
    specialize (Hev () eq_refl).
    assert (eval_step (self w1) = eval_step (self w)) as ->
      by (injection Hp as _ _ ? _ _ _ _ _ _ _ _; done).
    replace (eval_step (self w) <=? 0) with false by (symmetry; apply Z.leb_gt; lia).
    rewrite Hdata. simpl.
    replace (a + Z.of_nat 0 + 1) with (a + 1) in * by lia.
    rewrite (proj2 (Z.eqb_eq _ _) Hat).
    exists w1. split; [done |]. split; [| done].
    rewrite Hev, (range_cons a (a + 1)), (range_empty (a + 1) (a + 1)) by lia. done.
  - rewrite (range_cons a b) by lia. cbn [fit_dis_loop]. unfold fit_dis_epoch.
    pose proof (fit_train_frame train_data a w) as Hframe.
    destruct (Hnormal a w) as (total & w0 & Htrain).
    assert (∃ w1, fit_train train_data a w = (Ok (), w1)) as [w1 Hrun].
    { unfold fit_train. rewrite bind_run, Htrain. eexists. reflexivity. }
    rewrite Hrun in *. destruct Hframe as (Hfs & _ & Hp & Hev).
    specialize (Hev () eq_refl).
    assert (eval_step (self w1) = eval_step (self w)) as Hstep
      by (injection Hp as _ _ ? _ _ _ _ _ _ _ _; done).
    rewrite Hstep.
    replace (eval_step (self w) <=? 0) with false by (symmetry; apply Z.leb_gt; lia).
    rewrite Hdata. simpl.
    replace ((a + 1) `mod` eval_step (self w) =? 0) with false
      by (symmetry; apply Z.eqb_neq, Hbefore; lia).
    destruct (IH (a + 1) b w1) as (w' & Hloop & Hev' & Hfs' & Hp').
    + by rewrite Hstep.
    + rewrite Hstep. intros x Hx. apply Hbefore. lia.
    + rewrite Hstep.
      by replace (a + 1 + Z.of_nat k + 1) with (a + Z.of_nat (S k) + 1) by lia.
    + lia.
    + exists w'. split; [exact Hloop |]. split; [| split; congruence].
      rewrite Hev', Hev, <- app_assoc.
      rewrite (range_cons a (a + Z.of_nat (S k) + 1)) by lia.
      by replace (a + 1 + Z.of_nat k + 1) with (a + Z.of_nat (S k) + 1) by lia.
Qed.

Lemma fit_dis_run (train_data : list Interaction)
    (valid_data test_data : option (list Interaction)) (saved callback_fn : bool)
    (w : World) :
  trains_normally train_data →
  py_not valid_data = false →
  0 < eval_step (self w) →
  start_epoch (self w) + eval_step (self w) <= epochs (self w) →
  ∃ e w',
    fit_dis train_data valid_data test_data saved callback_fn w
      = (NameError "writer", w') ∧
    start_epoch (self w) <= e < start_epoch (self w) + eval_step (self w) ∧
    (e + 1) `mod` eval_step (self w) = 0 ∧
    events w' = events w ++ (Trained <$> range (start_epoch (self w)) (e + 1)) ∧
    fs w' = fs w ∧
    progress (self w') = progress (self w).
Proof.
  intros Hnormal Hdata Hpos Hroom.
  destruct (next_multiple (start_epoch (self w)) (eval_step (self w)) Hpos)
    as (Hk & Hat & Hbefore).
  set (k := (- (start_epoch (self w) + 1)) `mod` eval_step (self w)) in *.
  destruct (fit_dis_loop_run train_data valid_data saved (Z.to_nat k) Hnormal Hdata
              (start_epoch (self w)) (epochs (self w)) w Hpos)
    as (w' & Hloop & Hev & Hfs & Hp).
  - intros x Hx. apply Hbefore. lia.
  - by rewrite Z2Nat.id by lia.
  - lia.
  - rewrite Z2Nat.id in Hev by lia.
    exists (start_epoch (self w) + k), w'.
    unfold fit_dis.
    replace (epochs (self w) <=? start_epoch (self w)) with false
      by (symmetry; apply Z.leb_gt; lia).
    rewrite andb_false_r. cbv [when mret M_ret]. rewrite Hloop.
    repeat split; try done; lia.
Qed.

(** X21.  [fit_dis] cannot get through a validation.  With validation
    data, a positive [eval_step], training that returns a loss, and room
    in the budget for one validation
    ([start_epoch + eval_step <= epochs]), [fit_dis] raises [NameError]
    for the unbound name [writer] at the first epoch [e] of the range
    with [(e + 1) % eval_step = 0], while building the arguments of
    [dis_evaluate]: the epochs up to [e] have been trained, nothing has
    been validated and no checkpoint has been written, whatever [saved]
    is. *)
Theorem fit_dis_raises_name_error (train_data : list Interaction)
    (valid_data test_data : option (list Interaction)) (saved callback_fn : bool)
    (w : World) :
  trains_normally train_data →
  py_not valid_data = false →
  0 < eval_step (self w) →
  start_epoch (self w) + eval_step (self w) <= epochs (self w) →
  ∃ e w',
    fit_dis train_data valid_data test_data saved callback_fn w
      = (NameError "writer", w') ∧
    start_epoch (self w) <= e < start_epoch (self w) + eval_step (self w) ∧
    (e + 1) `mod` eval_step (self w) = 0 ∧
    events w' = events w ++ (Trained <$> range (start_epoch (self w)) (e + 1)) ∧
    fs w' = fs w ∧
    progress (self w') = progress (self w).
Proof. apply fit_dis_run. Qed.

End FitDisRuns.

Lemma fit_dis_raises_name_error_witness :
  let C := demo_collaborators nan_on_bad [9 # 10]%Q in
  let w := mkWorld (demo_trainer_eval_step 2 5 5) ∅ [] [] in
  ∃ e w',
    @fit_dis C [[("user_id", [1])]] (Some [[("user_id", [7])]])
      (Some [[("user_id", [8])]]) true false w = (NameError "writer", w') ∧
    start_epoch (self w) <= e < start_epoch (self w) + eval_step (self w) ∧
    (e + 1) `mod` eval_step (self w) = 0 ∧
    events w' = events w ++ (Trained <$> range (start_epoch (self w)) (e + 1)) ∧
    fs w' = fs w ∧
    progress (self w') = progress (self w).
Proof.
  intros C w.
  apply (@fit_dis_raises_name_error C [[("user_id", [1])]] (Some [[("user_id", [7])]])
           (Some [[("user_id", [8])]]) true false w).
  - intros epoch_idx w0. eexists _, _. reflexivity.
  - reflexivity.
  - reflexivity.
  - vm_compute. discriminate.
Defined.
